(** * train_min.py: the NAM -> AIDA-X trainer wrapper, embedded and verified

    The script [python/train_min.py] validates a pair of audio files, runs
    an external trainer as a child process and copies the trained model
    into an output directory.  Everything the script does is an effect on
    the outside world, so the embedding is a state-and-exception monad over
    an explicit [world] (file system, process environment, the two output
    streams and the log of spawned children); the behaviour of the code the
    script merely calls (librosa, the optional [colab_functions] module,
    the child processes, torch, the interpreter's [str] of an exception and
    the encoding of its standard output) is a parameter, [externals].  The
    library routines the script relies on for its own effects
    ([os.path.join], [os.makedirs], [shutil.copyfile]) are modelled here,
    over a file system with directories and path resolution. *)

From Stdlib Require Import ZArith Ascii String List Bool Lia.
From Stdlib Require Import QArith Qabs.
From Stdlib Require Import SpecFloat.
From stdpp Require Import base option gmap strings list fin_maps pretty.

Local Open Scope string_scope.
Local Open Scope Z_scope.

(** ** Python run-time values *)

Module Py.

(** Instances of Python's [Exception] class, the ones an
    [except Exception] clause catches.  The four [OSError]s carry the
    file name they were raised with. *)
Inductive exn : Type :=
| AssertionError (msg : string)
| KeyError (key : string)
| ZeroDivisionError (msg : string)
| OverflowError (msg : string)
| CalledProcessError (returncode : Z) (cmd : list string)
| FileNotFoundError (path : string)
| FileExistsError (path : string)
| IsADirectoryError (path : string)
| NotADirectoryError (path : string)
| SameFileError (src dst : string)
| ModuleNotFoundError (name : string)
| UnicodeEncodeError (text : string)
| OtherException (cls msg : string).

(** How a Python computation ends: with a value, with an [Exception]
    that propagates, or with one of the [BaseException]s that are not
    [Exception]s ([SystemExit], [KeyboardInterrupt]), which no
    [except Exception] clause stops and which end the interpreter with
    the given status. *)
Inductive outcome (A : Type) : Type :=
| Return (a : A)
| Raise (e : exn)
| Exit (status : Z).
Arguments Return {A} a.
Arguments Raise {A} e.
Arguments Exit {A} status.

(** [str(n)] for a Python int. *)
Definition str_int (n : Z) : string := pretty n.

(** Exit status of the interpreter for the outcome of the main module:
    0 after a normal return, 1 after an uncaught exception (the
    traceback goes to the error stream), the requested status after
    [SystemExit]. *)
Definition exit_status {A} (o : outcome A) : Z :=
  match o with
  | Return _ => 0
  | Raise _ => 1
  | Exit status => status
  end.

End Py.
Export Py.

(** ** Binary64 arithmetic, as Python's [float] *)

Module Float64.

Definition prec : Z := 53.
Definition emax : Z := 1024.

Definition float := spec_float.

(** A Python int as the exact operand of a true division. *)
Definition of_int (n : Z) : float :=
  match n with
  | Z0 => S754_zero false
  | Zpos p => S754_finite false p 0
  | Zneg p => S754_finite true p 0
  end.

(** The literal [3.0]. *)
Definition three : float := Eval vm_compute in binary_normalize prec emax 3 0 false.

Definition is_infinite (x : float) : bool :=
  match x with S754_infinity _ => true | _ => false end.

(** [a / b] on two Python ints: the quotient rounded once to the
    nearest binary64; [ZeroDivisionError] on a zero divisor and
    [OverflowError] when the quotient is out of range. *)
Definition int_truediv (a b : Z) : outcome float :=
  if b =? 0 then Raise (ZeroDivisionError "division by zero")
  else
    let q := SFdiv prec emax (of_int a) (of_int b) in
    if is_infinite q
    then Raise (OverflowError "integer division result too large for a float")
    else Return q.

Definition sub : float -> float -> float := SFsub prec emax.
Definition abs : float -> float := SFabs.
Definition ltb : float -> float -> bool := SFltb.
Definition leb : float -> float -> bool := SFleb.

End Float64.

(** ** Paths and the file system *)

Module OS.

Definition starts_with_sep (s : string) : bool :=
  match s with
  | String "/" _ => true
  | _ => false
  end.

Fixpoint ends_with_sep (s : string) : bool :=
  match s with
  | EmptyString => false
  | String c EmptyString => Ascii.eqb c "/"
  | String _ rest => ends_with_sep rest
  end.

Definition is_empty (s : string) : bool :=
  match s with EmptyString => true | _ => false end.

(** One step of [os.path.join] (posixpath): an absolute component
    replaces what came before, otherwise it is appended with exactly one
    separator between. *)
Definition join_step (path b : string) : string :=
  if starts_with_sep b then b
  else if is_empty path || ends_with_sep path then path +:+ b
  else path +:+ "/" +:+ b.

(** [os.path.join(a, *p)] *)
Definition path_join (a : string) (p : list string) : string :=
  fold_left join_step p a.

(** The last character of a path, if it has one. *)
Fixpoint last_char (s : string) : option ascii :=
  match s with
  | EmptyString => None
  | String c EmptyString => Some c
  | String _ rest => last_char rest
  end.

(** [s.rstrip('/')] *)
Fixpoint rstrip_sep (s : string) : string :=
  match s with
  | EmptyString => EmptyString
  | String c rest =>
      match rstrip_sep rest with
      | EmptyString => if Ascii.eqb c "/" then EmptyString else String c EmptyString
      | kept => String c kept
      end
  end.

(** [(p[:i], p[i:])] for [i = p.rfind('/') + 1]: the part up to and
    including the last separator, and what follows it. *)
Fixpoint cut_last_sep (p : string) : string * string :=
  match p with
  | EmptyString => (EmptyString, EmptyString)
  | String c rest =>
      let '(h, t) := cut_last_sep rest in
      if is_empty h
      then (if Ascii.eqb c "/" then (String c EmptyString, t) else (EmptyString, String c t))
      else (String c h, t)
  end.

(** [os.path.split] (posixpath): the head loses its trailing separators
    unless it is made of separators only. *)
Definition posix_split (p : string) : string * string :=
  let '(head, tail) := cut_last_sep p in
  (if is_empty (rstrip_sep head) then head else rstrip_sep head, tail).

(** [s.split('/')]: the components of a path as the kernel reads them,
    blank ones between doubled separators and after a trailing one. *)
Fixpoint comps (s : string) : list string :=
  match s with
  | EmptyString => [EmptyString]
  | String c rest =>
      if Ascii.eqb c "/" then EmptyString :: comps rest
      else match comps rest with
           | first :: others => String c first :: others
           | [] => [String c EmptyString]
           end
  end.

(** A string without separator, and a string of separators only. *)
Fixpoint no_sep (s : string) : bool :=
  match s with
  | EmptyString => true
  | String c rest => negb (Ascii.eqb c "/") && no_sep rest
  end.

Fixpoint all_sep (s : string) : bool :=
  match s with
  | EmptyString => true
  | String c rest => Ascii.eqb c "/" && all_sep rest
  end.

(** File-system nodes: a regular file with its bytes, or a directory.
    There are no symbolic links, no special files and no permissions:
    every name an entry has leads to it, and every entry can be read and
    written. *)
Inductive node : Type :=
| File (content : list Byte.byte)
| Dir.

(** A place in the tree: the names from the root down. *)
Definition location := list string.

Definition child (dir : location) (name : string) : location := (dir ++ [name])%list.

(** The tree, and the directory relative paths start from.  The root is
    a directory whatever [nodes] says of [[]]. *)
Record filesystem : Type := FileSystem {
  nodes : gmap location node;
  workdir : location
}.

Inductive errno : Type := ENOENT | EEXIST | ENOTDIR | EISDIR.

Definition node_at (f : filesystem) (l : location) : option node :=
  match l with
  | [] => Some Dir
  | _ => nodes f !! l
  end.

(** One component of a path, read in the directory [here]: a blank
    component and "." stay, ".." goes up (the root is its own parent), a
    name goes down to the entry of that name. *)
Definition step (f : filesystem) (here : location) (c : string) : errno + location :=
  match node_at f here with
  | None => inl ENOENT
  | Some (File _) => inl ENOTDIR
  | Some Dir =>
      if is_empty c || String.eqb c "." then inr here
      else if String.eqb c ".." then inr (List.removelast here)
      else match nodes f !! child here c with
           | Some _ => inr (child here c)
           | None => inl ENOENT
           end
  end.

Fixpoint walk (f : filesystem) (here : location) (cs : list string) : errno + location :=
  match cs with
  | [] => inr here
  | c :: cs' =>
      match step f here c with
      | inl e => inl e
      | inr there => walk f there cs'
      end
  end.

Definition start (f : filesystem) (path : string) : location :=
  if starts_with_sep path then [] else workdir f.

(** Path resolution, as [stat] does it: where the path leads and what is
    there.  The empty path names nothing; a trailing separator asks for a
    directory. *)
Definition resolve (f : filesystem) (path : string) : errno + (location * node) :=
  if is_empty path then inl ENOENT
  else
    match walk f (start f path) (comps path) with
    | inl e => inl e
    | inr l =>
        match node_at f l with
        | Some n => inr (l, n)
        | None => inl ENOENT
        end
    end.

(** [f !! path]: the node the path names, if it names one. *)
#[global] Instance filesystem_lookup : Lookup string node filesystem :=
  fun path f => match resolve f path with inr (_, n) => Some n | inl _ => None end.

(** [os.path.exists], [os.path.isdir]: a failing [stat] is [False]. *)
Definition path_exists (f : filesystem) (path : string) : bool :=
  match resolve f path with inr _ => true | inl _ => false end.

Definition path_isdir (f : filesystem) (path : string) : bool :=
  match resolve f path with inr (_, Dir) => true | _ => false end.

(** [shutil._samefile]: both paths lead to the same entry; [False] when
    one of them leads nowhere. *)
Definition samefile (f : filesystem) (a b : string) : bool :=
  match resolve f a, resolve f b with
  | inr (la, _), inr (lb, _) => bool_decide (la = lb)
  | _, _ => false
  end.

Definition names_directory (c : string) : bool :=
  is_empty c || String.eqb c "." || String.eqb c "..".

(** The name of an entry: one component that is neither blank nor made
    of dots. *)
Definition entry_name (c : string) : bool := no_sep c && negb (names_directory c).

(** How [mkdir] and a creating [open] look a path up: trailing
    separators are dropped, all components but the last are walked and
    must lead to a directory; the result is that directory and the last
    component. *)
Definition entry (f : filesystem) (path : string) : errno + (location * string) :=
  if is_empty path then inl ENOENT
  else
    let cs := comps (rstrip_sep path) in
    match walk f (start f path) (List.removelast cs) with
    | inl e => inl e
    | inr dir =>
        match node_at f dir with
        | Some Dir => inr (dir, List.last cs EmptyString)
        | Some (File _) => inl ENOTDIR
        | None => inl ENOENT
        end
    end.

(** [mkdir(2)]: a new, empty directory under an existing one. *)
Definition mkdir (f : filesystem) (path : string) : errno + filesystem :=
  match entry f path with
  | inl e => inl e
  | inr (dir, name) =>
      if names_directory name then inl EEXIST
      else match nodes f !! child dir name with
           | Some _ => inl EEXIST
           | None => inr (FileSystem (<[child dir name := Dir]> (nodes f)) (workdir f))
           end
  end.

(** [open(path, 'wb')]: the place of the file that is made or emptied. *)
Definition creat (f : filesystem) (path : string) : errno + location :=
  match entry f path with
  | inl e => inl e
  | inr (dir, name) =>
      if ends_with_sep path || names_directory name then inl EISDIR
      else match nodes f !! child dir name with
           | Some Dir => inl EISDIR
           | _ => inr (child dir name)
           end
  end.

(** [open(path, 'rb')] and reading to the end. *)
Definition read_file (f : filesystem) (path : string) : errno + list Byte.byte :=
  match resolve f path with
  | inl e => inl e
  | inr (_, Dir) => inl EISDIR
  | inr (_, File bytes) => inr bytes
  end.

Definition write (l : location) (bytes : list Byte.byte) (f : filesystem) : filesystem :=
  FileSystem (<[l := File bytes]> (nodes f)) (workdir f).

(** The exception [OSError] becomes for an error number. *)
Definition os_error (e : errno) (path : string) : exn :=
  match e with
  | ENOENT => FileNotFoundError path
  | EEXIST => FileExistsError path
  | ENOTDIR => NotADirectoryError path
  | EISDIR => IsADirectoryError path
  end.

End OS.
Export OS.

(** ** The world the script runs in *)

(** One child process as [subprocess] starts it: its argument vector, its
    working directory and the environment it receives. *)
Record spawn : Type := Spawn {
  argv : list string;
  cwd : string;
  child_env : gmap string string
}.

Record world : Type := World {
  fs : filesystem;
  environ : gmap string string;      (* os.environ of the wrapper *)
  stdout : list string;              (* lines printed, oldest first *)
  stderr : list string;
  spawned : list spawn               (* children started, oldest first *)
}.

Definition with_fs (f : filesystem) (w : world) : world :=
  World f (environ w) (stdout w) (stderr w) (spawned w).
Definition log_stdout (line : string) (w : world) : world :=
  World (fs w) (environ w) (stdout w ++ [line]) (stderr w) (spawned w).
Definition log_stderr (line : string) (w : world) : world :=
  World (fs w) (environ w) (stdout w) (stderr w ++ [line]) (spawned w).
Definition log_spawn (s : spawn) (w : world) : world :=
  World (fs w) (environ w) (stdout w) (stderr w) (spawned w ++ [s]).

(** What starting a child and waiting for it can give: the start itself
    fails, or the child runs, changes the file system and exits. *)
Inductive child_result : Type :=
| SpawnError (e : exn)
| Exited (returncode : Z) (fs' : filesystem).

(** A waveform as [librosa.load] returns it; the script only takes its
    [len]. *)
Definition ndarray := list Float64.float.

(** The optional module [colab_functions]: two routines that work on the
    file system and may fail. *)
Record colab_module : Type := {
  prep_audio :
    list string -> forall (file_name : string) (norm csv_file : bool),
    filesystem -> outcome unit * filesystem;
  create_csv_nam_v1_1_1 :
    string -> filesystem -> outcome unit * filesystem
}.

(** Everything the script calls and does not define.  The loader is
    taken as a reader of the file system: what it may write to the error
    stream or set in [os.environ] on its way is not part of the model. *)
Record externals : Type := {
  (* librosa.load(path, sr=None, mono=True): samples and native rate *)
  librosa_load : filesystem -> string -> outcome (ndarray * Z);
  (* from colab_functions import ...: the module, or the import fails *)
  import_colab_functions : filesystem -> outcome colab_module;
  (* a child process, given argv, cwd and its environment *)
  run_child : list string -> string -> gmap string string -> filesystem -> child_result;
  (* torch.cuda.is_available() *)
  cuda_is_available : bool;
  (* str(e), as an f-string formats an exception *)
  exn_str : exn -> string;
  (* whether the encoding of sys.stdout has every character of a text *)
  stdout_encodes : string -> bool
}.

(** ** The monad of script actions *)

Definition M (A : Type) : Type := world -> outcome A * world.

Definition ret {A} (a : A) : M A := fun w => (Return a, w).
Definition raise {A} (e : exn) : M A := fun w => (Raise e, w).
Definition bind {A B} (m : M A) (k : A -> M B) : M B :=
  fun w =>
    match m w with
    | (Return a, w') => k a w'
    | (Raise e, w') => (Raise e, w')
    | (Exit c, w') => (Exit c, w')
    end.

#[global] Instance M_ret : MRet M := @ret.
#[global] Instance M_bind : MBind M := fun A B k m => bind m k.

(** [try: body / except Exception as e: handler e] *)
Definition try_except {A} (body : M A) (handler : exn -> M A) : M A :=
  fun w =>
    match body w with
    | (Raise e, w') => handler e w'
    | r => r
    end.

(** [assert cond, msg], with assertions enabled as they are unless the
    interpreter is started with [-O]. *)
Definition py_assert (cond : bool) (msg : string) : M unit :=
  if cond then ret tt else raise (AssertionError msg).

(** [print] to the standard output and [print] with [file=sys.stderr]:
    the arguments separated by one space, as one line.  These two are for
    text that no stream refuses: the standard output takes ASCII in every
    encoding, and the error stream replaces what it cannot encode.  For
    other text on the standard output see [print_text]. *)
Definition print (args : list string) : M unit :=
  fun w => (Return tt, log_stdout (String.concat " " args) w).
Definition print_stderr (args : list string) : M unit :=
  fun w => (Return tt, log_stderr (String.concat " " args) w).

(** A pure computation that may raise. *)
Definition lift {A} (o : outcome A) : M A := fun w => (o, w).

(** A routine of an imported module, acting on the file system. *)
Definition call_fs {A} (f : filesystem -> outcome A * filesystem) : M A :=
  fun w => let '(o, f') := f (fs w) in (o, with_fs f' w).

(** [os.path.split] twice, as [os.makedirs] takes a name apart: a name
    that ends in a separator is split again without it. *)
Definition head_tail (name : string) : string * string :=
  let '(head, tail) := posix_split name in
  if is_empty tail then posix_split head else (head, tail).

(** [os.mkdir(path)] *)
Definition os_mkdir (path : string) : M unit :=
  fun w =>
    match mkdir (fs w) path with
    | inl e => (Raise (os_error e path), w)
    | inr f' => (Return tt, with_fs f' w)
    end.

(** The last statement of [os.makedirs] with [exist_ok=True]:
    [try: mkdir(name) / except OSError: if not path.isdir(name): raise].
    All that [os.mkdir] raises is an [OSError]. *)
Definition mkdir_exist_ok (name : string) : M unit :=
  try_except (os_mkdir name)
             (fun e w => if path_isdir (fs w) name then (Return tt, w) else (Raise e, w)).

(** [os.makedirs(name, exist_ok=True)], the recursion of the library: when
    the head of the name does not exist it is made first, a
    [FileExistsError] of that inner call is passed over, and a tail "."
    ends the call there; then the directory itself is made.  [depth]
    bounds the recursion; each inner call is on a shorter name, so the
    length of the name is depth enough ([makedirs_depth]). *)
Fixpoint makedirs (depth : nat) (name : string) : M unit :=
  match depth with
  | O => raise (OtherException "RecursionError" "maximum recursion depth exceeded")
  | S depth' =>
      let '(head, tail) := head_tail name in
      fun w =>
        if negb (is_empty head) && negb (is_empty tail) && negb (path_exists (fs w) head)
        then
          match makedirs depth' head w with
          | (Return _, w1) | (Raise (FileExistsError _), w1) =>
              if String.eqb tail "." then (Return tt, w1) else mkdir_exist_ok name w1
          | r => r
          end
        else mkdir_exist_ok name w
  end.

Definition os_makedirs_exist_ok (name : string) : M unit :=
  makedirs (S (String.length name)) name.

(** [shutil.copyfile(src, dst)]: copying a file onto itself is refused;
    then [src] is opened for reading and [dst] for writing, and [dst]
    receives the bytes of [src].  An [IsADirectoryError] for a [dst] that
    does not exist is turned into a [FileNotFoundError] of its own
    wording. *)
Definition shutil_copyfile (src dst : string) : M unit :=
  fun w =>
    let f := fs w in
    if samefile f src dst then (Raise (SameFileError src dst), w)
    else
      match read_file f src with
      | inl e => (Raise (os_error e src), w)
      | inr bytes =>
          match creat f dst with
          | inr l => (Return tt, with_fs (write l bytes f) w)
          | inl EISDIR =>
              if path_exists f dst then (Raise (IsADirectoryError dst), w)
              else (Raise (OtherException "FileNotFoundError"
                                          ("Directory does not exist: " +:+ dst)), w)
          | inl e => (Raise (os_error e dst), w)
          end
      end.

(** ** The script *)

Section TrainMin.

Variable X : externals.

(** [subprocess.check_call(cmd, cwd=cwd, env=env)]; [env=None] is the
    default: the child inherits [os.environ]. *)
Definition subprocess_check_call
    (cmd : list string) (dir : string) (env : option (gmap string string)) : M unit :=
  fun w =>
    let e := default (environ w) env in
    let w1 := log_spawn (Spawn cmd dir e) w in
    match run_child X cmd dir e (fs w) with
    | SpawnError err => (Raise err, w1)
    | Exited rc fs' =>
        if rc =? 0 then (Return tt, with_fs fs' w1)
        else (Raise (CalledProcessError rc cmd), with_fs fs' w1)
    end.

(** [abs(len(t_aud)/t_sr - len(i_aud)/i_sr)] *)
Definition duration_difference (t_aud : ndarray) (t_sr : Z) (i_aud : ndarray) (i_sr : Z)
  : outcome Float64.float :=
  match Float64.int_truediv (Z.of_nat (length t_aud)) t_sr with
  | Return dt =>
      match Float64.int_truediv (Z.of_nat (length i_aud)) i_sr with
      | Return di => Return (Float64.abs (Float64.sub dt di))
      | Raise e => Raise e
      | Exit c => Exit c
      end
  | Raise e => Raise e
  | Exit c => Exit c
  end.

(** [print] of text that may lie outside the encoding of the standard
    output, as the confirmation of the export does with its U+2705: the
    line is encoded as a whole before anything is written, and a character
    the stream does not have raises [UnicodeEncodeError]. *)
Definition print_text (args : list string) : M unit :=
  fun w =>
    let line := String.concat " " args in
    if stdout_encodes X line then (Return tt, log_stdout line w)
    else (Raise (UnicodeEncodeError line), w).

(** [librosa.load(path, sr=None, mono=True)] *)
Definition load (path : string) : M (ndarray * Z) :=
  fun w => (librosa_load X (fs w) path, w).

(** [from colab_functions import prep_audio, create_csv_nam_v1_1_1] *)
Definition import_colab : M colab_module :=
  fun w => (import_colab_functions X (fs w), w).

(** [os.environ.copy()]: a dict of its own, so that writing to it
    leaves [os.environ] alone. *)
Definition os_environ_copy : M (gmap string string) :=
  fun w => (Return (environ w), w).

(** The body of the [try] in [prepare_data]. *)
Definition prep_helpers (inp out : string) : M unit :=
  colab ← import_colab ;
  call_fs (create_csv_nam_v1_1_1 colab (inp +:+ ".csv")) ;;
  call_fs (prep_audio colab [inp; out] "amp" true false).

(** The f-string of the handler: [{e}] is [str(e)]. *)
Definition prep_warning (e : exn) : string :=
  "[warn] prep helpers missing/failed (" +:+ exn_str X e +:+ "); continuing with raw wavs.".

Definition prepare_data (data_dir : string) : M string :=
  let inp := path_join data_dir ["input.wav"] in
  let out := path_join data_dir ["output.wav"] in
  '(i_aud, i_sr) ← load inp ;
  '(t_aud, t_sr) ← load out ;
  d ← lift (duration_difference t_aud t_sr i_aud i_sr) ;
  py_assert (Float64.ltb d Float64.three) "Input/Target lengths differ too much" ;;
  py_assert (i_sr =? t_sr) "Sample rates differ" ;;
  try_except (prep_helpers inp out)
             (fun e => print_stderr [prep_warning e]) ;;
  mret "amp".

(** The dict literal of [train]. *)
Definition model_configs : gmap string string :=
  <["Heavy" := "LSTM-20"]> (<["Standard" := "LSTM-16"]>
    (<["Light" := "LSTM-12"]> (<["Lightest" := "LSTM-8"]> ∅))).

(** Subscripting the dict: [KeyError] on a key it lacks. *)
Definition dict_getitem (d : gmap string string) (key : string) : M string :=
  match d !! key with
  | Some v => ret v
  | None => raise (KeyError key)
  end.

Definition train_cmd (cfg file_name : string) (sc epochs : Z) : list string :=
  ["python3"; "dist_model_recnet.py"; "-l"; cfg; "-fn"; file_name;
   "-sc"; str_int sc; "-eps"; str_int epochs].

Definition train_env (parent : gmap string string) : gmap string string :=
  <["CUBLAS_WORKSPACE_CONFIG" := ":4096:2"]> (<["TF_CPP_MIN_LOG_LEVEL" := "3"]> parent).

Definition train (trainer_dir file_name model_type : string) (skip : bool) (epochs : Z)
  : M string :=
  cfg ← dict_getitem model_configs model_type ;
  let sc := if skip then 1 else 0 in
  env ← os_environ_copy ;
  let env := train_env env in
  let cmd := train_cmd cfg file_name sc epochs in
  print [">>"; String.concat " " cmd] ;;
  subprocess_check_call cmd trainer_dir (Some env) ;;
  mret (path_join trainer_dir ["Results"; file_name +:+ "_" +:+ cfg +:+ "-" +:+ str_int sc]).

Definition export_aidax (trainer_dir model_dir out_dir : string) : M unit :=
  let best := path_join model_dir ["model_best.json"] in
  subprocess_check_call ["python3"; "modelToKeras.py"; "-lm"; best] trainer_dir None ;;
  let keras_json := path_join trainer_dir ["model_keras.json"] in
  os_makedirs_exist_ok out_dir ;;
  let aidax := path_join out_dir ["model-lstm.aidax"] in
  shutil_copyfile keras_json aidax ;;
  shutil_copyfile best (path_join out_dir ["model-lstm.nam"]) ;;
  print_text ["✅ wrote: " +:+ aidax].

(** What [parse_args] hands to [main]. *)
Record namespace : Type := {
  data_dir : string;
  trainer : string;
  model_type : string;
  skip_connection : bool;
  epochs : Z;
  out_dir : string
}.

Definition main (args : namespace) : M unit :=
  print ["Using device:"; if cuda_is_available X then "cuda" else "cpu"] ;;
  fn ← prepare_data (data_dir args) ;
  model_dir ← train (trainer args) fn (model_type args) (skip_connection args) (epochs args) ;
  export_aidax (trainer args) model_dir (out_dir args).

End TrainMin.

(** ** Vocabulary of the statements *)

Section Vocabulary.

Variable X : externals.

(** The two paths [prepare_data] reads. *)
Definition inp_of (dir : string) : string := path_join dir ["input.wav"].
Definition out_of (dir : string) : string := path_join dir ["output.wav"].

(** The line [main] prints first. *)
Definition device_line : string :=
  String.concat " " ["Using device:"; if cuda_is_available X then "cuda" else "cpu"].

(** The line [train] prints before it starts the child. *)
Definition train_banner (cmd : list string) : string :=
  String.concat " " [">>"; String.concat " " cmd].

(** The world right after the training child has been started. *)
Definition train_started (trainer_dir : string) (cmd : list string) (w : world) : world :=
  log_spawn (Spawn cmd trainer_dir (train_env (environ w)))
            (log_stdout (train_banner cmd) w).

(** The directory [train] returns. *)
Definition results_dir (trainer_dir file_name cfg : string) (sc : Z) : string :=
  path_join trainer_dir ["Results"; file_name +:+ "_" +:+ cfg +:+ "-" +:+ str_int sc].

(** The command of the conversion child. *)
Definition convert_cmd (model_dir : string) : list string :=
  ["python3"; "modelToKeras.py"; "-lm"; path_join model_dir ["model_best.json"]].

(** The confirmation the export step prints. *)
Definition confirmation (out_dir : string) : string :=
  "✅ wrote: " +:+ path_join out_dir ["model-lstm.aidax"].

(** From [before] to [after] nothing was removed or rewritten: the
    working directory is the same, and a place holds what it held, or a
    new directory where there was nothing. *)
Definition grows (before after : filesystem) : Prop :=
  workdir after = workdir before /\
  forall l, nodes after !! l = nodes before !! l \/
            (nodes before !! l = None /\ nodes after !! l = Some Dir).

(** What the export step leaves in the file system [after], starting
    from the file system [before] that the conversion child left: the
    output directory, directly in it the two files, and these have the
    bytes the two sources have; everywhere else the tree is as it was,
    but for directories made where there was nothing. *)
Definition export_bundle (trainer_dir model_dir out_dir : string)
           (before after : filesystem) : Prop :=
  let best := path_join model_dir ["model_best.json"] in
  let keras_json := path_join trainer_dir ["model_keras.json"] in
  let aidax := path_join out_dir ["model-lstm.aidax"] in
  let nam := path_join out_dir ["model-lstm.nam"] in
  exists (dir : location) (keras_bytes best_bytes : list Byte.byte),
    resolve after out_dir = inr (dir, Dir) /\
    resolve after aidax = inr (child dir "model-lstm.aidax", File keras_bytes) /\
    resolve after nam = inr (child dir "model-lstm.nam", File best_bytes) /\
    after !! keras_json = Some (File keras_bytes) /\
    after !! best = Some (File best_bytes) /\
    workdir after = workdir before /\
    forall l, l <> child dir "model-lstm.aidax" -> l <> child dir "model-lstm.nam" ->
              nodes after !! l = nodes before !! l \/
              (nodes before !! l = None /\ nodes after !! l = Some Dir).

(** The claims speak of durations as fractions: the difference of two
    durations, each a sample count over a rate, exactly. *)
Definition exact_duration_difference (t_aud : ndarray) (t_sr : Z) (i_aud : ndarray) (i_sr : Z)
  : Q :=
  Qabs (inject_Z (Z.of_nat (length t_aud)) / inject_Z t_sr
        - inject_Z (Z.of_nat (length i_aud)) / inject_Z i_sr).

(** What a call of the library does to the world: the file system
    grows, and nothing else changes. *)
Definition extends (w w' : world) : Prop :=
  exists f, w' = with_fs f w /\ grows (fs w) f.

(** A step that acts on the file system and on nothing else. *)
Definition fs_only {A} (m : M A) : Prop :=
  forall w, exists f, snd (m w) = with_fs f w.

(** A step that starts no process and leaves [os.environ] alone. *)
Definition quiet {A} (m : M A) : Prop :=
  forall w, spawned (snd (m w)) = spawned w /\ environ (snd (m w)) = environ w.

End Vocabulary.

(** ** Concrete runs

    A stub of the outside world, small enough to run the script on: two
    clips at 8 Hz, a trainer stub that writes [model_best.json], a
    converter stub that writes [model_keras.json]. *)

Module Scenario.

Definition silence (n : nat) : ndarray := repeat (S754_zero false) n.

(** Building a file system: [place path n f] puts [n] where [path]
    points, under directories made on the way. *)
Fixpoint plant (m : gmap location node) (here : location) (cs : list string) (n : node)
  : gmap location node :=
  match cs with
  | [] => m
  | [c] => <[child here c := n]> m
  | c :: cs' =>
      plant (match m !! child here c with
             | Some Dir => m
             | _ => <[child here c := Dir]> m
             end) (child here c) cs' n
  end.

Definition place (path : string) (n : node) (f : filesystem) : filesystem :=
  FileSystem (plant (nodes f) (start f path)
                    (filter (fun c => negb (is_empty c || String.eqb c ".") = true) (comps path))
                    n)
             (workdir f).

(** A tree with the working directory [/job] and nothing else. *)
Definition bare : filesystem := FileSystem (<[ ["job"] := Dir ]> ∅) ["job"].

(** [str(e)] for the exceptions the stubs of these runs raise; the other
    classes never reach the handler here and get a placeholder. *)
Definition scenario_str (e : exn) : string :=
  match e with
  | ModuleNotFoundError name => "No module named '" +:+ name +:+ "'"
  | AssertionError msg | ZeroDivisionError msg | OverflowError msg
  | OtherException _ msg => msg
  | _ => "error"
  end.

Definition best_json : list Byte.byte := [Byte.x7b; Byte.x22; Byte.x6e; Byte.x22; Byte.x7d].
Definition keras_json : list Byte.byte := [Byte.x5b; Byte.x5d].

(** The two children: the trainer stub exits with [train_status] and,
    when that is 0, has written the best model; the converter stub
    writes the Keras file. *)
Definition stub_child (train_status : Z)
           (argv : list string) (dir : string) (env : gmap string string)
           (f : filesystem) : child_result :=
  if String.eqb (nth 1 argv "") "dist_model_recnet.py" then
    Exited train_status
           (if train_status =? 0
            then place "t/Results/amp_LSTM-16-0/model_best.json" (File best_json) f
            else f)
  else if String.eqb (nth 1 argv "") "modelToKeras.py" then
    Exited 0 (place "t/model_keras.json" (File keras_json) f)
  else SpawnError (FileNotFoundError "python3").

(** The helper module is not installed. *)
Definition absent : outcome colab_module :=
  Raise (ModuleNotFoundError "colab_functions").


Definition studio (inp out : ndarray * Z) (colab : outcome colab_module)
           (train_status : Z) : externals :=
  {| librosa_load := fun _ path =>
       if String.eqb path "data/input.wav" then Return inp
       else if String.eqb path "data/output.wav" then Return out
       else Raise (FileNotFoundError path);
     import_colab_functions := fun _ => colab;
     run_child := stub_child train_status;
     cuda_is_available := false;
     exn_str := scenario_str;
     stdout_encodes := fun _ => true |}.

(** 2 s against 4 s at 8 Hz: accepted. *)
Definition good : externals := studio (silence 16, 8) (silence 32, 8) absent 0.
(** The same pair with a trainer that exits with status 2. *)
Definition good_failing : externals := studio (silence 16, 8) (silence 32, 8) absent 2.
(** 5 s against 10 s at 8 Hz: too far apart. *)
Definition long_target : externals := studio (silence 40, 8) (silence 80, 8) absent 0.
(** 1 s at 8 Hz against 10 s at 4 Hz: too far apart, and the rates
    differ. *)
Definition both_wrong : externals := studio (silence 8, 8) (silence 40, 4) absent 0.
(** 2 s at 8 Hz against 4 s at 4 Hz: the rates differ. *)
Definition rate_only : externals := studio (silence 16, 8) (silence 16, 4) absent 0.
(** 7 against 16 samples at 3 Hz: three seconds apart, as fractions. *)
Definition three_apart : externals := studio (silence 7, 3) (silence 16, 3) absent 0.
(** 7 samples at 3 Hz against 32 at 6 Hz: as far apart, and the rates
    differ. *)
Definition three_apart_two_rates : externals :=
  studio (silence 7, 3) (silence 32, 6) absent 0.

Definition args0 : namespace :=
  {| data_dir := "data"; trainer := "t"; model_type := "Standard";
     skip_connection := false; epochs := 200; out_dir := "res" |}.

Definition w0 : world :=
  World bare (<["PATH" := "/usr/bin"]> ∅) [] [] [].

(** A world in which the output directory exists already. *)
Definition w_again : world :=
  World (place "res" Dir bare) (<["PATH" := "/usr/bin"]> ∅) [] [] [].

Definition two : Float64.float := S754_finite false 4503599627370496 (-51).
Definition five : Float64.float := S754_finite false 5629499534213120 (-50).

End Scenario.

(** More stubs: helper modules that work, fail early or quit, and children
    that fail or forget their output. *)

Module MoreRuns.
Import Scenario.

(** A helper module that works: both routines write a file. *)
Definition working : outcome colab_module :=
  Return {| prep_audio := fun _ name _ _ f =>
              (Return tt, place ("Data/train/" +:+ name +:+ "-input.wav") (File []) f);
            create_csv_nam_v1_1_1 := fun p f => (Return tt, place p (File []) f) |}.


(** A helper module whose second routine ends the interpreter with
    status 0. *)
Definition quitting : outcome colab_module :=
  Return {| prep_audio := fun _ _ _ _ f => (Exit 0, f);
            create_csv_nam_v1_1_1 := fun p f => (Return tt, place p (File []) f) |}.


Definition good_working : externals := studio (silence 16, 8) (silence 32, 8) working 0.
Definition good_quitting : externals := studio (silence 16, 8) (silence 32, 8) quitting 0.

(** Children: the trainer exits with 0 and writes the best model if
    [trains]; the converter exits with [conv_status] and writes the Keras
    file if [converts]. *)
Definition stub_children (trains : bool) (conv_status : Z) (converts : bool)
           (argv : list string) (dir : string) (env : gmap string string)
           (f : filesystem) : child_result :=
  if String.eqb (nth 1 argv "") "dist_model_recnet.py" then
    Exited 0 (if trains
              then place "t/Results/amp_LSTM-16-0/model_best.json" (File best_json) f
              else f)
  else if String.eqb (nth 1 argv "") "modelToKeras.py" then
    Exited conv_status
           (if converts then place "t/model_keras.json" (File keras_json) f else f)
  else SpawnError (FileNotFoundError "python3").

Definition with_children (trains : bool) (conv_status : Z) (converts : bool) : externals :=
  {| librosa_load := librosa_load good;
     import_colab_functions := fun _ => absent;
     run_child := stub_children trains conv_status converts;
     cuda_is_available := true;
     exn_str := scenario_str;
     stdout_encodes := fun _ => true |}.

(** The stubs of [good] behind a standard output that takes ASCII
    only. *)
Definition is_ascii (text : string) : bool :=
  forallb (fun c => (N_of_ascii c <? 128)%N) (list_ascii_of_string text).

Definition good_ascii : externals :=
  {| librosa_load := librosa_load good;
     import_colab_functions := import_colab_functions good;
     run_child := run_child good;
     cuda_is_available := false;
     exn_str := scenario_str;
     stdout_encodes := is_ascii |}.

(** A world with the two recordings in the data directory. *)
Definition riff : list Byte.byte := [Byte.x52; Byte.x49; Byte.x46; Byte.x46].


(** The arguments of a run into a nested output directory, and into a
    name that ends in a separator. *)
Definition args_nested : namespace :=
  {| data_dir := "data"; trainer := "t"; model_type := "Standard";
     skip_connection := false; epochs := 200; out_dir := "out/nested" |}.

Definition args_slash : namespace :=
  {| data_dir := "data"; trainer := "t"; model_type := "Standard";
     skip_connection := false; epochs := 200; out_dir := "res/" |}.

(** A small tree to try the library routines on: a file [f], a
    directory [d] and a file [d/g] in it. *)
Definition w_tree : world :=
  World (place "d/g" (File riff) (place "f" (File []) bare)) ∅ [] [] [].

(** The world after a training that wrote the best model. *)
Definition w_trained : world :=
  World (place "t/Results/amp_LSTM-16-0/model_best.json" (File best_json) bare)
        (<["PATH" := "/usr/bin"]> ∅) [] [] [].

(** The same with a regular file where the output directory should go. *)
Definition w_blocked : world :=
  World (place "res" (File [])
           (place "t/Results/amp_LSTM-16-0/model_best.json" (File best_json) bare))
        (<["PATH" := "/usr/bin"]> ∅) [] [] [].

End MoreRuns.

(** * Properties *)

(** ** The monad *)

Section MonadFacts.

Context {A B : Type}.
Implicit Types (m : M A) (k : A -> M B).

Lemma bind_return m k w a w' :
  m w = (Return a, w') -> (m ≫= k) w = k a w'.
Proof. intros H. unfold mbind, M_bind, bind. now rewrite H. Qed.

Lemma bind_raise m k w e w' :
  m w = (Raise e, w') -> (m ≫= k) w = (Raise e, w').
Proof. intros H. unfold mbind, M_bind, bind. now rewrite H. Qed.

Lemma bind_exit m k w c w' :
  m w = (Exit c, w') -> (m ≫= k) w = (Exit c, w').
Proof. intros H. unfold mbind, M_bind, bind. now rewrite H. Qed.

(** A sequence that returns went through a first step that returned. *)
Lemma bind_return_inv m k w b w'' :
  (m ≫= k) w = (Return b, w'') ->
  exists a w', m w = (Return a, w') /\ k a w' = (Return b, w'').
Proof.
  unfold mbind, M_bind, bind.
  destruct (m w) as [[a | e | c] w'] eqn:E; intros H; try discriminate.
  now exists a, w'.
Qed.

(** A sequence raises because its first step does, or its second. *)
Lemma bind_raise_inv m k w e w'' :
  (m ≫= k) w = (Raise e, w'') ->
  m w = (Raise e, w'') \/
  exists a w', m w = (Return a, w') /\ k a w' = (Raise e, w'').
Proof.
  unfold mbind, M_bind, bind.
  destruct (m w) as [[a | e' | c] w'] eqn:E; intros H; try discriminate.
  - right. now exists a, w'.
  - left. now inversion H.
Qed.

End MonadFacts.

(** ** Binary64 comparisons *)

Module Float64Facts.
Import Float64.

Lemma compare_cont_opp (p q : positive) :
  Pos.compare_cont Eq q p = CompOpp (Pos.compare_cont Eq p q).
Proof. exact (Pos.compare_antisym p q). Qed.

(** Swapping the operands of a comparison reverses its result. *)
Lemma SFcompare_swap (x y : float) (c : comparison) :
  SFcompare x y = Some c -> SFcompare y x = Some (CompOpp c).
Proof.
  destruct x as [sx | sx | | sx mx ex], y as [sy | sy | | sy my ey];
    simpl; try discriminate;
    try (destruct sx; intros [= <-]; reflexivity);
    try (destruct sy; intros [= <-]; reflexivity);
    try (destruct sx, sy; intros [= <-]; reflexivity).
  destruct sx, sy; intros [= <-]; try reflexivity;
    rewrite (Z.compare_antisym ex ey);
    destruct (ex ?= ey); simpl; try reflexivity;
    rewrite (compare_cont_opp mx my);
    destruct (Pos.compare_cont Eq mx my); reflexivity.
Qed.

(** [3.0 <= d] and [d < 3.0] exclude each other... *)
Lemma leb_not_ltb (x y : float) : leb x y = true -> ltb y x = false.
Proof.
  unfold leb, ltb, SFleb, SFltb.
  destruct (SFcompare x y) as [c |] eqn:E; [| discriminate].
  rewrite (SFcompare_swap _ _ _ E). destruct c; simpl; congruence.
Qed.

Lemma ltb_not_leb (x y : float) : ltb x y = true -> leb y x = false.
Proof.
  unfold leb, ltb, SFleb, SFltb.
  destruct (SFcompare x y) as [c |] eqn:E; [| discriminate].
  rewrite (SFcompare_swap _ _ _ E). destruct c; simpl; congruence.
Qed.

(** ... and one of them holds unless [d] is not a number. *)
Lemma ltb_or_leb (x y : float) :
  x <> S754_nan -> y <> S754_nan -> ltb x y = true \/ leb y x = true.
Proof.
  intros Hx Hy. unfold leb, ltb, SFleb, SFltb.
  destruct (SFcompare x y) as [c |] eqn:E.
  - rewrite (SFcompare_swap _ _ _ E). destruct c; simpl; auto.
  - destruct x, y; simpl in E; congruence.
Qed.

(** A true division never ends the interpreter. *)
Lemma int_truediv_no_exit (a b c : Z) : int_truediv a b <> Exit c.
Proof.
  unfold int_truediv. destruct (b =? 0); [discriminate |].
  destruct (is_infinite _); discriminate.
Qed.

End Float64Facts.

(** ** Paths *)

Module OSFacts.

Lemma app_cons (x : ascii) (a b : string) : String x a +:+ b = String x (a +:+ b).
Proof. reflexivity. Qed.

Lemma app_assoc (a b c : string) : (a +:+ b) +:+ c = a +:+ b +:+ c.
Proof.
  induction a as [| x a IH]; [reflexivity |].
  now rewrite !app_cons, IH.
Qed.

Lemma app_nonempty (a b : string) : b <> "" -> a +:+ b <> "".
Proof. destruct a; [auto | rewrite app_cons; discriminate]. Qed.

Lemma last_char_app (a b : string) : b <> "" -> last_char (a +:+ b) = last_char b.
Proof.
  intros Hb. induction a as [| x a IH]; [reflexivity |].
  rewrite app_cons. simpl.
  destruct (a +:+ b) eqn:E; [| exact IH].
  now destruct (app_nonempty a b Hb).
Qed.

Lemma ends_with_sep_last (s : string) :
  ends_with_sep s = match last_char s with
                    | Some c => Ascii.eqb c "/"
                    | None => false
                    end.
Proof.
  induction s as [| x s IH]; simpl; [reflexivity |].
  destruct s; [reflexivity | exact IH].
Qed.

Lemma length_app (a b : string) :
  String.length (a +:+ b) = (String.length a + String.length b)%nat.
Proof.
  induction a as [| x a IH]; [reflexivity |].
  rewrite app_cons. simpl. now rewrite IH.
Qed.

(** On a plain directory name and relative components, joining is
    writing the components one after another with "/" between. *)
Lemma join_plain (a b : string) :
  a <> "" -> ends_with_sep a = false -> starts_with_sep b = false ->
  join_step a b = a +:+ "/" +:+ b.
Proof.
  intros Ha Hend Hrel. unfold join_step. rewrite Hrel, Hend.
  destruct a; [congruence | reflexivity].
Qed.

Lemma app_empty_r (a : string) : a +:+ "" = a.
Proof. induction a as [| x a IH]; [reflexivity |]. now rewrite app_cons, IH. Qed.

Lemma is_empty_true (s : string) : is_empty s = true <-> s = "".
Proof. destruct s; simpl; split; congruence. Qed.

Lemma is_empty_false (s : string) : is_empty s = false <-> s <> "".
Proof. destruct s; simpl; split; congruence. Qed.

Lemma comps_nonempty (s : string) : comps s <> [].
Proof.
  induction s as [| c s IH]; simpl; [discriminate |].
  destruct (Ascii.eqb c "/"); [discriminate |].
  destruct (comps s); [contradiction | discriminate].
Qed.

(** Splitting distributes over a separator. *)
Lemma comps_app_sep (a b : string) :
  comps (a +:+ "/" +:+ b) = (comps a ++ comps b)%list.
Proof.
  induction a as [| c a IH].
  - reflexivity.
  - rewrite app_cons. simpl. rewrite IH.
    destruct (Ascii.eqb c "/"); [reflexivity |].
    pose proof (comps_nonempty a) as Hne.
    destruct (comps a) as [| first others]; [contradiction | reflexivity].
Qed.

Lemma comps_no_sep (s : string) : no_sep s = true -> comps s = [s].
Proof.
  induction s as [| c s IH]; simpl; [reflexivity |].
  intros [Hc Hs]%andb_prop.
  destruct (Ascii.eqb c "/"); [discriminate |].
  now rewrite (IH Hs).
Qed.

Lemma comps_snoc (a name : string) :
  no_sep name = true -> comps (a +:+ "/" +:+ name) = (comps a ++ [name])%list.
Proof. intros H. now rewrite comps_app_sep, (comps_no_sep _ H). Qed.

(** Trailing separators only add blank components. *)
Lemma comps_rstrip (s : string) :
  exists k, comps s = (comps (rstrip_sep s) ++ repeat "" k)%list.
Proof.
  induction s as [| c s [k IH]].
  - exists 0%nat. reflexivity.
  - simpl. destruct (rstrip_sep s) as [| c' kept] eqn:E.
    + change (comps s = "" :: repeat "" k) in IH. destruct (Ascii.eqb c "/") eqn:Ec.
      * exists (S k). rewrite IH. reflexivity.
      * exists k. rewrite IH. simpl. now rewrite Ec.
    + exists k. change (comps (String c (String c' kept)))
        with (if Ascii.eqb c "/" then "" :: comps (String c' kept)
              else match comps (String c' kept) with
                   | first :: others => String c first :: others
                   | [] => [String c ""]
                   end).
      destruct (Ascii.eqb c "/"); [now rewrite IH |].
      rewrite IH.
      pose proof (comps_nonempty (String c' kept)) as Hne.
      destruct (comps (String c' kept)); [contradiction | reflexivity].
Qed.

Lemma rstrip_length (s : string) :
  (String.length (rstrip_sep s) <= String.length s)%nat.
Proof.
  induction s as [| c s IH]; simpl; [lia |].
  destruct (rstrip_sep s); [destruct (Ascii.eqb c "/") |]; simpl in *; lia.
Qed.

Lemma rstrip_all_sep (s : string) : rstrip_sep s = "" <-> all_sep s = true.
Proof.
  induction s as [| c s IH]; simpl; [tauto |].
  destruct (rstrip_sep s) eqn:E.
  - destruct (Ascii.eqb c "/"); simpl; [tauto |].
    split; [discriminate | discriminate].
  - split; [discriminate |].
    intros [_ H]%andb_prop. apply IH in H. discriminate.
Qed.

(** A string is what [rstrip] keeps of it, and separators. *)
Lemma rstrip_decomp (s : string) :
  exists q, s = rstrip_sep s +:+ q /\ all_sep q = true.
Proof.
  induction s as [| c s (q & IH & Hq)].
  - now exists "".
  - simpl. destruct (rstrip_sep s) as [| c' kept] eqn:E.
    + change (s = q) in IH. subst q. destruct (Ascii.eqb_spec c "/") as [-> | Hc].
      * exists (String "/" s). split; [reflexivity |]. exact Hq.
      * exists s. split; [reflexivity | exact Hq].
    + exists q. split; [| exact Hq]. rewrite app_cons. now rewrite <- IH.
Qed.

Lemma rstrip_no_sep_end (a name : string) :
  name <> "" -> no_sep name = true -> rstrip_sep (a +:+ name) = a +:+ name.
Proof.
  intros Hne Hns.
  assert (Hn : rstrip_sep name = name).
  { clear Hne. induction name as [| c n IH]; [reflexivity |].
    simpl in *. apply andb_prop in Hns as [Hc Hn]. rewrite (IH Hn).
    destruct n; [| reflexivity]. now destruct (Ascii.eqb c "/"). }
  induction a as [| c a IH]; [exact Hn |].
  rewrite app_cons. simpl. rewrite IH.
  destruct (a +:+ name) eqn:E; [| reflexivity].
  now destruct (app_nonempty a name Hne).
Qed.

Lemma starts_with_sep_app (a b : string) :
  a <> "" -> starts_with_sep (a +:+ b) = starts_with_sep a.
Proof. destruct a; [congruence | reflexivity]. Qed.

Lemma all_sep_starts (s : string) : s <> "" -> all_sep s = true -> starts_with_sep s = true.
Proof.
  destruct s as [| c s]; [congruence |]. simpl. intros _ [Hc _]%andb_prop.
  apply Ascii.eqb_eq in Hc. now subst c.
Qed.

Lemma comps_all_sep (s : string) :
  all_sep s = true -> comps s = repeat "" (S (String.length s)).
Proof.
  induction s as [| c s IH]; simpl; [reflexivity |].
  intros [Hc Hs]%andb_prop. rewrite Hc. now rewrite (IH Hs).
Qed.

(** What [cut_last_sep] returns. *)
Lemma cut_last_sep_spec (p : string) :
  p = fst (cut_last_sep p) +:+ snd (cut_last_sep p) /\
  no_sep (snd (cut_last_sep p)) = true /\
  (fst (cut_last_sep p) = "" \/ exists h, fst (cut_last_sep p) = h +:+ "/").
Proof.
  induction p as [| c p (IH1 & IH2 & IH3)]; simpl.
  - repeat split. now left.
  - destruct (cut_last_sep p) as [h t]. simpl in *.
    destruct h as [| c' h]; simpl.
    + destruct (Ascii.eqb_spec c "/") as [-> | Hc]; simpl.
      * repeat split; [now rewrite IH1 | exact IH2 |]. right. now exists "".
      * repeat split; [now rewrite IH1 | | now left].
        rewrite IH2. now apply Ascii.eqb_neq in Hc as ->.
    + repeat split; [now rewrite IH1 | exact IH2 |].
      right. destruct IH3 as [| [h' Hh']]; [discriminate |].
      exists (String c h'). rewrite app_cons. now rewrite <- Hh'.
Qed.

(** *** Joining a name to a directory *)

Lemma ends_with_sep_inv (d : string) :
  ends_with_sep d = true -> exists x, d = x +:+ "/".
Proof.
  induction d as [| c d IH]; [discriminate |].
  simpl. destruct d as [| c' d'].
  - intros ->%Ascii.eqb_eq. now exists "".
  - intros [x Hx]%IH. exists (String c x). rewrite app_cons. now rewrite <- Hx.
Qed.

Lemma entry_name_inv (name : string) :
  entry_name name = true ->
  no_sep name = true /\ name <> "" /\ names_directory name = false /\
  starts_with_sep name = false.
Proof.
  unfold entry_name. intros [Hn Hd]%andb_prop. apply negb_true_iff in Hd.
  repeat split; try assumption.
  - intros ->. discriminate.
  - destruct name as [| c n]; [reflexivity |]. simpl in *.
    apply andb_prop in Hn as [Hc _]. apply negb_true_iff, Ascii.eqb_neq in Hc.
    destruct c as [[] [] [] [] [] [] [] []]; try reflexivity. congruence.
Qed.

(** A name joined to a directory: the components of the directory, and
    the name. *)
Lemma join_name (d name : string) :
  entry_name name = true ->
  (d = "" /\ path_join d [name] = name) \/
  (d <> "" /\ exists x k,
      path_join d [name] = x +:+ "/" +:+ name /\
      comps d = (comps x ++ repeat "" k)%list /\
      starts_with_sep (path_join d [name]) = starts_with_sep d).
Proof.
  intros (Hns & Hne & Hnd & Hrel)%entry_name_inv.
  unfold path_join. cbn [fold_left]. unfold join_step. rewrite Hrel.
  destruct d as [| c d]; [now left |]. right. split; [discriminate |].
  cbn [is_empty orb].
  destruct (ends_with_sep (String c d)) eqn:E.
  - destruct (ends_with_sep_inv _ E) as [x Hx]. exists x, 1%nat. rewrite Hx.
    repeat split.
    + now rewrite app_assoc.
    + rewrite <- (app_empty_r (x +:+ "/")), app_assoc. now rewrite comps_app_sep.
    + rewrite <- Hx. reflexivity.
  - exists (String c d), 0%nat. repeat split. simpl. now rewrite app_nil_r.
Qed.

Lemma join_rstrip (d name : string) :
  entry_name name = true ->
  rstrip_sep (path_join d [name]) = path_join d [name] /\
  ends_with_sep (path_join d [name]) = false /\
  path_join d [name] <> "".
Proof.
  intros Hn. pose proof (entry_name_inv _ Hn) as (Hns & Hne & Hnd & Hrel).
  assert (Hform : exists a, path_join d [name] = a +:+ name).
  { destruct (join_name d name Hn) as [[_ ->] | (_ & x & k & -> & _)].
    - now exists "".
    - exists (x +:+ "/"). now rewrite app_assoc. }
  destruct Hform as [a ->]. split; [now apply rstrip_no_sep_end |].
  split; [| now apply app_nonempty].
  assert (Hlast : forall s, ends_with_sep s = true -> exists y, s = y +:+ "/")
    by apply ends_with_sep_inv.
  destruct (ends_with_sep (a +:+ name)) eqn:E; [| reflexivity].
  exfalso. apply Hlast in E as [y Hy].
  assert (Hr : rstrip_sep (a +:+ name) = a +:+ name) by now apply rstrip_no_sep_end.
  rewrite Hy in Hr.
  (* a string that [rstrip] leaves alone does not end in a separator *)
  assert (Hgen : forall s, rstrip_sep (s +:+ "/") <> s +:+ "/").
  { clear. intros s. pose proof (rstrip_length s) as Hlen.
    induction s as [| c s IH]; [discriminate |].
    rewrite app_cons. simpl. simpl in Hlen.
    destruct (rstrip_sep (s +:+ "/")) eqn:E.
    - destruct (Ascii.eqb c "/"); [discriminate |].
      intros [= H]. destruct s; discriminate.
    - intros [= H]. apply IH; [| congruence].
      pose proof (rstrip_length s). lia. }
  now apply Hgen in Hr.
Qed.

End OSFacts.

(** ** Path resolution *)

Module FsFacts.
Import OSFacts.

Lemma step_dir (f : filesystem) (here there : location) (c : string) :
  step f here c = inr there -> node_at f here = Some Dir.
Proof. unfold step. now destruct (node_at f here) as [[] |]. Qed.

Lemma step_blank (f : filesystem) (here : location) :
  node_at f here = Some Dir -> step f here "" = inr here.
Proof. unfold step. now intros ->. Qed.

(** A step by the name of an entry leads to that entry. *)
Lemma step_name (f : filesystem) (here : location) (name : string) :
  names_directory name = false ->
  step f here name =
    match node_at f here with
    | None => inl ENOENT
    | Some (File _) => inl ENOTDIR
    | Some Dir => match nodes f !! child here name with
                  | Some _ => inr (child here name)
                  | None => inl ENOENT
                  end
    end.
Proof.
  unfold names_directory, step. intros H.
  apply orb_false_elim in H as [H H2]. rewrite H, H2. reflexivity.
Qed.

Lemma walk_app (f : filesystem) (here : location) (cs1 cs2 : list string) :
  walk f here (cs1 ++ cs2) =
    match walk f here cs1 with
    | inl e => inl e
    | inr there => walk f there cs2
    end.
Proof.
  revert here. induction cs1 as [| c cs1 IH]; intros here; simpl; [reflexivity |].
  destruct (step f here c); [reflexivity | apply IH].
Qed.

Lemma walk_blanks (f : filesystem) (here : location) (k : nat) :
  node_at f here = Some Dir -> walk f here (repeat "" k) = inr here.
Proof.
  intros H. induction k as [| k IH]; simpl; [reflexivity |].
  now rewrite (step_blank _ _ H).
Qed.

Lemma walk_blanks_inv (f : filesystem) (here there : location) (k : nat) :
  walk f here (repeat "" k) = inr there -> there = here.
Proof.
  induction k as [| k IH]; simpl; [congruence |].
  unfold step. destruct (node_at f here) as [[] |]; try discriminate.
  exact IH.
Qed.

(** A path of separators only is the root. *)
Lemma resolve_all_sep (f : filesystem) (s : string) :
  s <> "" -> all_sep s = true -> resolve f s = inr ([], Dir).
Proof.
  intros Hne Hall. unfold resolve, start.
  rewrite (all_sep_starts _ Hne Hall), (comps_all_sep _ Hall).
  destruct s; [congruence |]. cbn [is_empty].
  now rewrite walk_blanks.
Qed.

(** Trailing separators do not change where a path leads. *)
Lemma resolve_rstrip (f : filesystem) (path : string) (x : location * node) :
  resolve f path = inr x -> rstrip_sep path <> "" ->
  resolve f (rstrip_sep path) = inr x.
Proof.
  unfold resolve. intros H Hne.
  destruct path as [| c p]; [discriminate |].
  destruct (rstrip_sep (String c p)) as [| c' kept] eqn:E; [congruence |].
  cbn [is_empty] in *.
  assert (Hstart : start f (String c' kept) = start f (String c p)).
  { destruct (rstrip_decomp (String c p)) as (q & Hq & _). rewrite E in Hq.
    unfold start. rewrite Hq. now rewrite starts_with_sep_app. }
  rewrite Hstart.
  destruct (comps_rstrip (String c p)) as [k Hk]. rewrite E in Hk.
  rewrite Hk, walk_app in H.
  destruct (walk f (start f (String c p)) (comps (String c' kept))) as [e | l];
    [discriminate |].
  destruct (walk f l (repeat "" k)) as [e | l'] eqn:Ew; [discriminate |].
  apply walk_blanks_inv in Ew as ->. exact H.
Qed.

(** What resolves has an entry: [mkdir] finds it there. *)
Lemma mkdir_resolved (f : filesystem) (path : string) (x : location * node) :
  resolve f path = inr x -> mkdir f path = inl EEXIST.
Proof.
  unfold resolve, mkdir, entry.
  destruct (is_empty path); [discriminate |].
  destruct (comps_rstrip path) as [k Hk]. rewrite Hk.
  pose proof (comps_nonempty (rstrip_sep path)) as Hne.
  rewrite (app_removelast_last "" Hne) at 1.
  set (cs := removelast (comps (rstrip_sep path))).
  set (c := List.last (comps (rstrip_sep path)) "").
  rewrite <- List.app_assoc, walk_app.
  destruct (walk f (start f path) cs) as [e | dir]; [discriminate |].
  cbn [app walk].
  destruct (step f dir c) as [e | there] eqn:Es; [discriminate |].
  pose proof (step_dir _ _ _ _ Es) as Hd. rewrite Hd. intros _.
  destruct (names_directory c) eqn:Ed; [reflexivity |].
  rewrite (step_name _ _ _ Ed), Hd in Es.
  now destruct (nodes f !! child dir c).
Qed.

(** The head of a path that resolves exists. *)
Lemma split_head_exists (f : filesystem) (p : string) (x : location * node) :
  resolve f p = inr x ->
  fst (posix_split p) <> "" -> snd (posix_split p) <> "" ->
  path_exists f (fst (posix_split p)) = true.
Proof.
  intros Hres. unfold posix_split.
  destruct (cut_last_sep_spec p) as (Hp & Hns & Hh).
  destruct (cut_last_sep p) as [h0 t]. simpl in *. intros Hhead Htail.
  destruct Hh as [-> | [h' ->]]; [now destruct Hhead |].
  unfold path_exists.
  destruct (rstrip_sep (h' +:+ "/")) as [| c kept] eqn:E.
  - simpl. rewrite resolve_all_sep; [reflexivity | |].
    + now apply app_nonempty.
    + now apply rstrip_all_sep.
  - cbn [is_empty]. rewrite <- E.
    assert (Hdir : exists l, resolve f (h' +:+ "/") = inr (l, Dir)).
    { assert (Hne : h' +:+ "/" <> "") by now apply app_nonempty.
      unfold resolve in *.
      destruct (is_empty p) eqn:Ep; [discriminate |].
      rewrite (proj2 (is_empty_false _) Hne).
      assert (Hs : start f (h' +:+ "/") = start f p).
      { unfold start. rewrite Hp. now rewrite (starts_with_sep_app (h' +:+ "/") t Hne). }
      rewrite Hs. clear Hs.
      set (s0 := start f p) in *. clearbody s0.
      rewrite Hp, app_assoc, (comps_snoc _ _ Hns), walk_app in Hres.
      rewrite <- (app_empty_r (h' +:+ "/")), app_assoc, comps_app_sep, walk_app.
      destruct (walk f s0 (comps h')) as [e | l]; [discriminate |].
      cbn [walk] in Hres. destruct (step f l t) as [e | there] eqn:Es; [discriminate |].
      pose proof (step_dir _ _ _ _ Es) as Hd.
      exists l. cbn [comps walk]. now rewrite (step_blank _ _ Hd), Hd. }
    destruct Hdir as [l Hl].
    rewrite (resolve_rstrip _ _ _ Hl); [reflexivity |]. rewrite E. discriminate.
Qed.

Lemma head_tail_exists (f : filesystem) (name : string) (x : location * node) :
  resolve f name = inr x ->
  negb (is_empty (fst (head_tail name))) && negb (is_empty (snd (head_tail name)))
    && negb (path_exists f (fst (head_tail name))) = false.
Proof.
  intros Hres. unfold head_tail.
  destruct (posix_split name) as [h1 t1] eqn:E1.
  destruct (is_empty t1) eqn:Et.
  - (* the name ends in a separator: it is split again without it *)
    destruct (is_empty (fst (posix_split h1))) eqn:Eh; [reflexivity |].
    destruct (is_empty (snd (posix_split h1))) eqn:Et2; [now rewrite andb_false_r |].
    simpl. apply negb_false_iff.
    assert (Hh1 : exists y, resolve f h1 = inr y).
    { unfold posix_split in E1.
      destruct (cut_last_sep_spec name) as (Hp & _ & _).
      destruct (cut_last_sep name) as [h0 t]. simpl in *.
      injection E1 as E1 E2. apply is_empty_true in Et. subst t1 t.
      rewrite app_empty_r in Hp. subst h0.
      destruct (is_empty (rstrip_sep name)) eqn:Er; subst h1; [now exists x |].
      exists x. apply resolve_rstrip; [exact Hres |]. now apply is_empty_false. }
    destruct Hh1 as [y Hy].
    apply (split_head_exists f h1 y Hy); now apply is_empty_false.
  - simpl. rewrite Et. simpl.
    destruct (is_empty h1) eqn:Eh; [reflexivity |]. simpl. apply negb_false_iff.
    pose proof (split_head_exists f name x Hres) as H. rewrite E1 in H.
    apply H; now apply is_empty_false.
Qed.


(** *** Names joined to a directory *)

(** Blank components before a step change nothing. *)
Lemma blanks_then_step (f : filesystem) (l : location) (k : nat) (c : string) :
  match walk f l (repeat "" k) with
  | inl e => inl e
  | inr dir => step f dir c
  end = step f l c.
Proof.
  destruct (node_at f l) as [[] |] eqn:Hd.
  - destruct k as [| k]; [reflexivity |]. cbn [repeat walk]. unfold step. now rewrite Hd.
  - now rewrite walk_blanks.
  - destruct k as [| k]; [reflexivity |]. cbn [repeat walk]. unfold step. now rewrite Hd.
Qed.

Lemma blanks_then_dir {A} (f : filesystem) (l : location) (k : nat) (a : location -> A) :
  match walk f l (repeat "" k) with
  | inl e => inl e
  | inr dir =>
      match node_at f dir with
      | Some Dir => inr (a dir)
      | Some (File _) => inl ENOTDIR
      | None => inl ENOENT
      end
  end =
  match node_at f l with
  | Some Dir => inr (a l)
  | Some (File _) => inl ENOTDIR
  | None => inl ENOENT
  end.
Proof.
  destruct k as [| k]; [reflexivity |].
  destruct (node_at f l) as [[] |] eqn:Hd.
  - cbn [repeat walk]. unfold step. now rewrite Hd.
  - now rewrite walk_blanks, Hd.
  - cbn [repeat walk]. unfold step. now rewrite Hd.
Qed.

(** Where the path of an entry of a directory leads. *)
Lemma walk_join (f : filesystem) (d name : string) :
  entry_name name = true ->
  walk f (start f (path_join d [name])) (comps (path_join d [name])) =
    match (if is_empty d then inr (workdir f) else walk f (start f d) (comps d)) with
    | inl e => inl e
    | inr dir => step f dir name
    end.
Proof.
  intros Hn. pose proof (entry_name_inv _ Hn) as (Hns & Hne & Hnd & Hrel).
  destruct (join_name d name Hn) as [[-> ->] | (Hd & x & k & -> & Hc & Hs)].
  - cbn [is_empty]. unfold start. rewrite Hrel, (comps_no_sep _ Hns). cbn [walk].
    now destruct (step f (workdir f) name).
  - rewrite (proj2 (is_empty_false _) Hd).
    unfold start at 1. rewrite Hs. fold (start f d).
    rewrite (comps_snoc _ _ Hns), Hc, !walk_app.
    destruct (walk f (start f d) (comps x)) as [e | l]; [reflexivity |].
    rewrite blanks_then_step. cbn [walk].
    now destruct (step f l name).
Qed.

(** The directory and the name [entry] finds for a joined path. *)
Lemma entry_join (f : filesystem) (d name : string) :
  entry_name name = true ->
  entry f (path_join d [name]) =
    match (if is_empty d then inr (workdir f) else walk f (start f d) (comps d)) with
    | inl e => inl e
    | inr dir =>
        match node_at f dir with
        | Some Dir => inr (dir, name)
        | Some (File _) => inl ENOTDIR
        | None => inl ENOENT
        end
    end.
Proof.
  intros Hn. pose proof (entry_name_inv _ Hn) as (Hns & Hne & Hnd & Hrel).
  destruct (join_rstrip d name Hn) as (Hr & _ & Hnon).
  unfold entry. rewrite Hr, (proj2 (is_empty_false _) Hnon).
  destruct (join_name d name Hn) as [[-> ->] | (Hd & x & k & -> & Hc & Hs)].
  - cbn [is_empty]. unfold start. rewrite Hrel, (comps_no_sep _ Hns). reflexivity.
  - rewrite (proj2 (is_empty_false _) Hd).
    unfold start at 1. rewrite Hs. fold (start f d).
    rewrite (comps_snoc _ _ Hns), removelast_last, last_last, Hc, walk_app.
    destruct (walk f (start f d) (comps x)) as [e | l]; [reflexivity |].
    now rewrite (blanks_then_dir f l k (fun dir => (dir, name))).
Qed.

(** The directory of a joined path that resolves is what the directory
    part resolves to. *)
Lemma dir_of_join (f : filesystem) (d : string) (dir : location) :
  (if is_empty d then inr (workdir f) else walk f (start f d) (comps d)) = inr dir ->
  node_at f dir = Some Dir ->
  d <> "" -> resolve f d = inr (dir, Dir).
Proof.
  intros Hw Hd Hne. unfold resolve.
  rewrite (proj2 (is_empty_false _) Hne) in *. now rewrite Hw, Hd.
Qed.

(** A joined path that resolves leads to the entry of that name. *)
Lemma resolve_join_inv (f : filesystem) (d name : string) (l : location) (n : node) :
  entry_name name = true ->
  resolve f (path_join d [name]) = inr (l, n) ->
  exists dir, l = child dir name /\ nodes f !! child dir name = Some n /\
              entry f (path_join d [name]) = inr (dir, name) /\
              (d <> "" -> resolve f d = inr (dir, Dir)).
Proof.
  intros Hn. pose proof (entry_name_inv _ Hn) as (Hns & Hne & Hnd & Hrel).
  unfold resolve. destruct (join_rstrip d name Hn) as (_ & _ & Hnon).
  rewrite (proj2 (is_empty_false _) Hnon), (walk_join f d name Hn), (entry_join f d name Hn).
  destruct (if is_empty d then _ else _) as [e | dir] eqn:Ew; [discriminate |].
  rewrite (step_name _ _ _ Hnd).
  destruct (node_at f dir) as [[] |] eqn:Ed; try discriminate.
  destruct (nodes f !! child dir name) as [n' |] eqn:En; [| discriminate].
  assert (Hat : node_at f (child dir name) = Some n')
    by (unfold node_at, child in *; destruct dir; exact En).
  rewrite Hat. intros [= <- <-].
  exists dir. repeat split; try assumption. intros Hd. now apply dir_of_join.
Qed.

(** ... and a creating [open] of a joined path makes or empties that
    entry. *)
Lemma creat_join_inv (f : filesystem) (d name : string) (l : location) :
  entry_name name = true ->
  creat f (path_join d [name]) = inr l ->
  exists dir, l = child dir name /\ nodes f !! l <> Some Dir /\
              node_at f dir = Some Dir /\
              entry f (path_join d [name]) = inr (dir, name) /\
              (d <> "" -> resolve f d = inr (dir, Dir)).
Proof.
  intros Hn. pose proof (entry_name_inv _ Hn) as (Hns & Hne & Hnd & Hrel).
  unfold creat. rewrite (entry_join f d name Hn).
  destruct (join_rstrip d name Hn) as (_ & -> & _).
  destruct (if is_empty d then _ else _) as [e | dir] eqn:Ew; [discriminate |].
  destruct (node_at f dir) as [[] |] eqn:Ed; try discriminate.
  rewrite Hnd. cbn [orb].
  destruct (nodes f !! child dir name) as [[] |] eqn:En; try discriminate;
    intros [= <-]; exists dir;
    (split; [reflexivity |]); (split; [rewrite En; discriminate |]);
    (split; [exact Ed |]); (split; [reflexivity |]);
    intros Hd; now apply dir_of_join.
Qed.

(** The other way round: from the directory to its entry. *)
Lemma resolve_dir_inv (f : filesystem) (d : string) (dir : location) :
  resolve f d = inr (dir, Dir) ->
  d <> "" /\
  (if is_empty d then inr (workdir f) else walk f (start f d) (comps d)) = inr dir /\
  node_at f dir = Some Dir.
Proof.
  unfold resolve. destruct d as [| c d]; [discriminate |]. cbn [is_empty].
  destruct (walk f _ _) as [e | l]; [discriminate |].
  destruct (node_at f l) as [n |] eqn:E; [| discriminate].
  intros [= -> ->]. now repeat split.
Qed.

Lemma node_at_child (f : filesystem) (dir : location) (name : string) :
  node_at f (child dir name) = nodes f !! child dir name.
Proof. unfold node_at, child. now destruct dir. Qed.

Lemma resolve_join (f : filesystem) (d name : string) (dir : location) :
  entry_name name = true ->
  resolve f d = inr (dir, Dir) ->
  resolve f (path_join d [name]) =
    match nodes f !! child dir name with
    | Some n => inr (child dir name, n)
    | None => inl ENOENT
    end.
Proof.
  intros Hn (Hd & Hw & Hdir)%resolve_dir_inv.
  pose proof (entry_name_inv _ Hn) as (Hns & Hne & Hnd & Hrel).
  unfold resolve. destruct (join_rstrip d name Hn) as (_ & _ & Hnon).
  rewrite (proj2 (is_empty_false _) Hnon), (walk_join f d name Hn), Hw.
  rewrite (step_name _ _ _ Hnd), Hdir.
  destruct (nodes f !! child dir name) as [n |] eqn:En; [| reflexivity].
  now rewrite node_at_child, En.
Qed.

Lemma creat_join (f : filesystem) (d name : string) (dir : location) :
  entry_name name = true ->
  resolve f d = inr (dir, Dir) ->
  nodes f !! child dir name <> Some Dir ->
  creat f (path_join d [name]) = inr (child dir name).
Proof.
  intros Hn (Hd & Hw & Hdir)%resolve_dir_inv Hfree.
  pose proof (entry_name_inv _ Hn) as (Hns & Hne & Hnd & Hrel).
  unfold creat. rewrite (entry_join f d name Hn), Hw, Hdir.
  destruct (join_rstrip d name Hn) as (_ & -> & _). rewrite Hnd. cbn [orb].
  now destruct (nodes f !! child dir name) as [[] |].
Qed.

Lemma child_inj (d1 d2 : location) (n1 n2 : string) :
  child d1 n1 = child d2 n2 -> d1 = d2 /\ n1 = n2.
Proof. unfold child. now intros H%app_inj_tail. Qed.

Lemma child_not_root (d : location) (n : string) : child d n <> [].
Proof. unfold child. now destruct d. Qed.

Lemma child_not_self (d : location) (n : string) : child d n <> d.
Proof.
  unfold child. intros H. apply (f_equal (@length _)) in H.
  rewrite List.length_app in H. simpl in H. lia.
Qed.

(** *** Writing a file *)

Section Write.

Variables (f : filesystem) (la : location) (bytes : list Byte.byte).
Hypothesis Hfree : nodes f !! la <> Some Dir.

Lemma node_at_write (l : location) :
  l <> [] -> node_at (write la bytes f) l = if decide (l = la) then Some (File bytes) else node_at f l.
Proof.
  intros Hl. unfold node_at, write. destruct l; [congruence |]. cbn [nodes].
  case_decide as E.
  - rewrite E. apply lookup_insert_eq.
  - now rewrite lookup_insert_ne by congruence.
Qed.

Lemma node_at_write_dir (l : location) :
  node_at f l = Some Dir -> node_at (write la bytes f) l = Some Dir.
Proof.
  destruct l as [| c l]; [reflexivity |]. intros H.
  rewrite node_at_write by discriminate.
  case_decide as E; [| exact H]. subst la. simpl in H. congruence.
Qed.

Lemma step_write (here there : location) (c : string) :
  step f here c = inr there -> step (write la bytes f) here c = inr there.
Proof.
  intros H. pose proof (step_dir _ _ _ _ H) as Hd.
  unfold step in *. rewrite Hd in H. rewrite (node_at_write_dir _ Hd).
  destruct (is_empty c || String.eqb c "."); [exact H |].
  destruct (String.eqb c ".."); [exact H |].
  cbn [nodes write].
  destruct (decide (child here c = la)) as [E | E].
  - rewrite E, lookup_insert_eq. rewrite E in H.
    now destruct (nodes f !! la).
  - now rewrite lookup_insert_ne by congruence.
Qed.

Lemma walk_write (here there : location) (cs : list string) :
  walk f here cs = inr there -> walk (write la bytes f) here cs = inr there.
Proof.
  revert here. induction cs as [| c cs IH]; intros here; simpl; [easy |].
  destruct (step f here c) as [e | l] eqn:Es; [discriminate |].
  rewrite (step_write _ _ _ Es). apply IH.
Qed.

(** What resolved before a write resolves after it, to the same place;
    only the written place holds something new. *)
Lemma resolve_write (path : string) (l : location) (n : node) :
  la <> [] ->
  resolve f path = inr (l, n) ->
  resolve (write la bytes f) path = inr (l, if decide (l = la) then File bytes else n).
Proof.
  intros Hla. unfold resolve. destruct (is_empty path); [discriminate |].
  change (start (write la bytes f) path) with (start f path).
  destruct (walk f (start f path) (comps path)) as [e | l'] eqn:Ew; [discriminate |].
  rewrite (walk_write _ _ _ Ew).
  destruct (node_at f l') as [n' |] eqn:En; [| discriminate]. intros [= -> ->].
  destruct l as [| c l].
  - cbn [node_at] in *. injection En as <-. case_decide; [congruence | reflexivity].
  - rewrite node_at_write by discriminate. case_decide; [reflexivity | now rewrite En].
Qed.

End Write.

(** A place a creating [open] writes to reads back what was written. *)
Lemma resolve_written (f : filesystem) (d name : string) (l : location)
      (bytes : list Byte.byte) :
  entry_name name = true ->
  creat f (path_join d [name]) = inr l ->
  resolve (write l bytes f) (path_join d [name]) = inr (l, File bytes).
Proof.
  intros Hn Hc.
  destruct (creat_join_inv f d name l Hn Hc) as (dir & -> & Hfree & Hdir & He & Hd).
  pose proof (entry_name_inv _ Hn) as (Hns & Hne & Hnd & Hrel).
  unfold resolve. destruct (join_rstrip d name Hn) as (_ & _ & Hnon).
  rewrite (proj2 (is_empty_false _) Hnon).
  change (start (write (child dir name) bytes f) (path_join d [name]))
    with (start f (path_join d [name])).
  (* the walk to the directory is the one before the write *)
  pose proof (entry_join f d name Hn) as He'. rewrite He in He'.
  pose proof (walk_join f d name Hn) as Hw.
  pose proof (walk_join (write (child dir name) bytes f) d name Hn) as Hw'.
  change (start (write (child dir name) bytes f) (path_join d [name]))
    with (start f (path_join d [name])) in Hw'.
  change (workdir (write (child dir name) bytes f)) with (workdir f) in Hw'.
  change (start (write (child dir name) bytes f) d) with (start f d) in Hw'.
  destruct (if is_empty d then inr (workdir f) else walk f (start f d) (comps d))
    as [e | dir'] eqn:Ew.
  { discriminate. }
  assert (dir' = dir) as ->.
  { destruct (node_at f dir') as [[] |]; try discriminate. now injection He' as ->. }
  assert (Ew' : (if is_empty d then inr (workdir f)
                 else walk (write (child dir name) bytes f) (start f d) (comps d)) = inr dir).
  { destruct (is_empty d); [exact Ew |]. now apply walk_write. }
  rewrite Ew' in Hw'. rewrite Hw'.
  rewrite (step_name _ _ _ Hnd), (node_at_write_dir _ _ _ Hfree _ Hdir).
  cbn [nodes write]. rewrite lookup_insert_eq.
  rewrite node_at_write by apply child_not_root.
  case_decide; [reflexivity | congruence].
Qed.

End FsFacts.

(** ** The library routines *)

Module LibraryFacts.
Import OSFacts FsFacts.

Lemma with_fs_same (w : world) : with_fs (fs w) w = w.
Proof. now destruct w. Qed.

Lemma grows_refl (f : filesystem) : grows f f.
Proof. split; [reflexivity | now left]. Qed.

Lemma grows_trans (f g h : filesystem) : grows f g -> grows g h -> grows f h.
Proof.
  intros [Hw1 H1] [Hw2 H2]. split; [congruence |]. intros l.
  destruct (H1 l) as [E1 | [E1 E1']], (H2 l) as [E2 | [E2 E2']].
  - left. congruence.
  - right. split; congruence.
  - right. split; congruence.
  - congruence.
Qed.

Lemma mkdir_grows (f f' : filesystem) (path : string) :
  mkdir f path = inr f' -> grows f f'.
Proof.
  unfold mkdir. destruct (entry f path) as [e | [dir name]]; [discriminate |].
  destruct (names_directory name); [discriminate |].
  destruct (nodes f !! child dir name) eqn:E; [discriminate |].
  intros [= <-]. split; [reflexivity |]. intros l. cbn [nodes].
  destruct (decide (l = child dir name)) as [-> | Hne].
  - right. now rewrite lookup_insert_eq.
  - left. now rewrite lookup_insert_ne.
Qed.

Lemma extends_refl (w : world) : extends w w.
Proof. exists (fs w). split; [now rewrite with_fs_same | apply grows_refl]. Qed.

Lemma extends_trans (w1 w2 w3 : world) : extends w1 w2 -> extends w2 w3 -> extends w1 w3.
Proof.
  intros (f & -> & H1) (g & -> & H2). exists g. split; [reflexivity |].
  exact (grows_trans _ _ _ H1 H2).
Qed.

Lemma os_mkdir_extends (path : string) (w : world) : extends w (snd (os_mkdir path w)).
Proof.
  unfold os_mkdir. destruct (mkdir (fs w) path) as [e | f'] eqn:E; simpl.
  - apply extends_refl.
  - exists f'. split; [reflexivity |]. exact (mkdir_grows _ _ _ E).
Qed.

Lemma mkdir_exist_ok_extends (name : string) (w : world) :
  extends w (snd (mkdir_exist_ok name w)).
Proof.
  unfold mkdir_exist_ok, try_except.
  pose proof (os_mkdir_extends name w) as H.
  destruct (os_mkdir name w) as [[[] | e | c] w']; simpl in *; try exact H.
  now destruct (path_isdir (fs w') name).
Qed.

Lemma makedirs_extends (depth : nat) (name : string) (w : world) :
  extends w (snd (makedirs depth name w)).
Proof.
  revert name w. induction depth as [| depth IH]; intros name w; simpl.
  - apply extends_refl.
  - destruct (head_tail name) as [head tail].
    destruct (negb (is_empty head) && negb (is_empty tail) && negb (path_exists (fs w) head)).
    + pose proof (IH head w) as H.
      destruct (makedirs depth head w) as [[[] | e | c] w1]; simpl in H; try exact H.
      * destruct (String.eqb tail "."); [exact H |].
        exact (extends_trans _ _ _ H (mkdir_exist_ok_extends name w1)).
      * destruct e; try exact H.
        destruct (String.eqb tail "."); [exact H |].
        exact (extends_trans _ _ _ H (mkdir_exist_ok_extends name w1)).
    + apply mkdir_exist_ok_extends.
Qed.

(** [os.makedirs] of a name that exists: the recursion is not entered,
    and [mkdir] finds the entry there. *)
Lemma makedirs_resolved (name : string) (w : world) (x : location * node) :
  resolve (fs w) name = inr x ->
  os_makedirs_exist_ok name w =
    (if path_isdir (fs w) name then Return tt else Raise (FileExistsError name), w).
Proof.
  intros Hres. unfold os_makedirs_exist_ok. cbn [makedirs].
  pose proof (head_tail_exists (fs w) name x Hres) as Hcond.
  destruct (head_tail name) as [head tail]. cbn [fst snd] in Hcond. rewrite Hcond.
  unfold mkdir_exist_ok, try_except, os_mkdir.
  rewrite (mkdir_resolved _ _ _ Hres). cbn [os_error].
  now destruct (path_isdir (fs w) name).
Qed.

(** The output directory that is there already: nothing is made and
    nothing fails. *)
Lemma makedirs_existing (name : string) (w : world) :
  fs w !! name = Some Dir -> os_makedirs_exist_ok name w = (Return tt, w).
Proof.
  unfold lookup, filesystem_lookup.
  destruct (resolve (fs w) name) as [e | [l n]] eqn:E; [discriminate |].
  intros [= ->]. rewrite (makedirs_resolved _ _ _ E).
  unfold path_isdir. now rewrite E.
Qed.

(** A regular file of that name is in the way. *)
Lemma makedirs_over_file (name : string) (w : world) (bytes : list Byte.byte) :
  fs w !! name = Some (File bytes) ->
  os_makedirs_exist_ok name w = (Raise (FileExistsError name), w).
Proof.
  unfold lookup, filesystem_lookup.
  destruct (resolve (fs w) name) as [e | [l n]] eqn:E; [discriminate |].
  intros [= ->]. rewrite (makedirs_resolved _ _ _ E).
  unfold path_isdir. now rewrite E.
Qed.

Lemma makedirs_empty_name (w : world) :
  os_makedirs_exist_ok "" w = (Raise (FileNotFoundError ""), w).
Proof. reflexivity. Qed.

(** The head [os.makedirs] recurses on is shorter than the name. *)
Lemma posix_split_length (p : string) :
  (String.length (fst (posix_split p)) + String.length (snd (posix_split p))
   <= String.length p)%nat.
Proof.
  unfold posix_split.
  destruct (cut_last_sep_spec p) as (Hp & _ & _).
  destruct (cut_last_sep p) as [h t]. cbn [fst snd] in *.
  apply (f_equal String.length) in Hp. rewrite length_app in Hp.
  pose proof (rstrip_length h).
  destruct (is_empty (rstrip_sep h)); lia.
Qed.

Lemma head_tail_shorter (name : string) :
  snd (head_tail name) <> "" ->
  (String.length (fst (head_tail name)) < String.length name)%nat.
Proof.
  unfold head_tail.
  pose proof (posix_split_length name) as H1.
  destruct (posix_split name) as [h1 t1]. cbn [fst snd] in H1.
  destruct (is_empty t1) eqn:Et.
  - pose proof (posix_split_length h1) as H2.
    destruct (posix_split h1) as [h2 t2]. cbn [fst snd] in *.
    intros Hne. destruct t2; [congruence |]. simpl in H2. lia.
  - cbn [fst snd]. intros _. destruct t1; [discriminate |]. simpl in H1. lia.
Qed.

(** The recursion of [os.makedirs] is never cut short: any depth beyond
    the length of the name gives the same result. *)
Lemma makedirs_depth (n m : nat) (name : string) (w : world) :
  (String.length name < n)%nat -> (String.length name < m)%nat ->
  makedirs n name w = makedirs m name w.
Proof.
  revert m name w. induction n as [| n IH]; intros m name w Hn Hm; [lia |].
  destruct m as [| m]; [lia |]. cbn [makedirs].
  pose proof (head_tail_shorter name) as Hlen.
  destruct (head_tail name) as [head tail]. cbn [fst snd] in Hlen.
  destruct (is_empty head) eqn:Eh; [reflexivity |].
  destruct (is_empty tail) eqn:Et; [reflexivity |].
  cbn [negb andb].
  destruct (path_exists (fs w) head); [reflexivity |]. cbn [negb].
  apply is_empty_false in Et.
  rewrite (IH m head w) by (specialize (Hlen Et); lia).
  reflexivity.
Qed.

(** [shutil.copyfile], read backwards from a normal return. *)
Lemma copyfile_return_inv (src dst : string) (w w' : world) (u : unit) :
  shutil_copyfile src dst w = (Return u, w') ->
  exists bytes l,
    read_file (fs w) src = inr bytes /\
    creat (fs w) dst = inr l /\
    w' = with_fs (write l bytes (fs w)) w.
Proof.
  unfold shutil_copyfile.
  destruct (samefile (fs w) src dst); [discriminate |].
  destruct (read_file (fs w) src) as [e | bytes]; [discriminate |].
  destruct (creat (fs w) dst) as [[] | l]; try discriminate.
  - destruct (path_exists (fs w) dst); discriminate.
  - intros [= _ <-]. now exists bytes, l.
Qed.

Lemma copyfile_succeeds (src dst : string) (w : world) (bytes : list Byte.byte)
      (l : location) :
  samefile (fs w) src dst = false ->
  read_file (fs w) src = inr bytes ->
  creat (fs w) dst = inr l ->
  shutil_copyfile src dst w = (Return tt, with_fs (write l bytes (fs w)) w).
Proof. intros Hs Hr Hc. unfold shutil_copyfile. now rewrite Hs, Hr, Hc. Qed.

(** A source that is not there. *)
Lemma copyfile_missing_source (src dst : string) (w : world) :
  resolve (fs w) src = inl ENOENT ->
  shutil_copyfile src dst w = (Raise (FileNotFoundError src), w).
Proof.
  intros H. unfold shutil_copyfile, samefile, read_file. now rewrite H.
Qed.

Lemma read_file_inv (f : filesystem) (path : string) (bytes : list Byte.byte) :
  read_file f path = inr bytes ->
  exists l, resolve f path = inr (l, File bytes).
Proof.
  unfold read_file. destruct (resolve f path) as [e | [l []]]; try discriminate.
  intros [= ->]. now exists l.
Qed.

Lemma fs_only_makedirs (name : string) : fs_only (os_makedirs_exist_ok name).
Proof.
  intros w. destruct (makedirs_extends (S (String.length name)) name w) as (f & H & _).
  now exists f.
Qed.

Lemma fs_only_copyfile (src dst : string) : fs_only (shutil_copyfile src dst).
Proof.
  intros w. unfold shutil_copyfile.
  destruct (samefile (fs w) src dst); [exists (fs w); now rewrite with_fs_same |].
  destruct (read_file (fs w) src) as [e | bytes]; [exists (fs w); now rewrite with_fs_same |].
  destruct (creat (fs w) dst) as [[] | l];
    try (exists (fs w); now rewrite with_fs_same).
  - destruct (path_exists (fs w) dst); exists (fs w); now rewrite with_fs_same.
  - now eexists.
Qed.

Lemma fs_only_quiet {A} (m : M A) : fs_only m -> quiet m.
Proof. intros H w. destruct (H w) as [f ->]. now split. Qed.

Lemma fs_only_streams {A} (m : M A) (w : world) :
  fs_only m -> stdout (snd (m w)) = stdout w /\ stderr (snd (m w)) = stderr w.
Proof. intros H. destruct (H w) as [f ->]. now split. Qed.

End LibraryFacts.

(** ** Data preparation *)

Section DataPreparation.

Variable X : externals.

(** The [try] statement of [prepare_data] never raises: what the body
    raises is caught, and the handler only prints. *)
Lemma try_helpers_cases (inp out : string) (w : world) :
  (exists w', prep_helpers X inp out w = (Return tt, w') /\
     try_except (prep_helpers X inp out) (fun e => print_stderr [prep_warning X e]) w
       = (Return tt, w')) \/
  (exists e w', prep_helpers X inp out w = (Raise e, w') /\
     try_except (prep_helpers X inp out) (fun e => print_stderr [prep_warning X e]) w
       = (Return tt, log_stderr (prep_warning X e) w')) \/
  (exists c w', prep_helpers X inp out w = (Exit c, w') /\
     try_except (prep_helpers X inp out) (fun e => print_stderr [prep_warning X e]) w
       = (Exit c, w')).
Proof.
  unfold try_except.
  destruct (prep_helpers X inp out w) as [[[] | e | c] w'] eqn:E.
  - left. now exists w'.
  - right. left. exists e, w'. split; [reflexivity |].
    unfold print_stderr. simpl. reflexivity.
  - right. right. now exists c, w'.
Qed.

(** [prepare_data] once both files are loaded: the two assertions, then
    the helpers. *)
Lemma prepare_data_loaded (w : world) (dir : string)
      (i_aud t_aud : ndarray) (i_sr t_sr : Z) :
  librosa_load X (fs w) (inp_of dir) = Return (i_aud, i_sr) ->
  librosa_load X (fs w) (out_of dir) = Return (t_aud, t_sr) ->
  prepare_data X dir w =
    match duration_difference t_aud t_sr i_aud i_sr with
    | Return d =>
        if Float64.ltb d Float64.three then
          if i_sr =? t_sr then
            (try_except (prep_helpers X (inp_of dir) (out_of dir))
                        (fun e => print_stderr [prep_warning X e]) ;; mret "amp") w
          else (Raise (AssertionError "Sample rates differ"), w)
        else (Raise (AssertionError "Input/Target lengths differ too much"), w)
    | Raise e => (Raise e, w)
    | Exit c => (Exit c, w)
    end.
Proof.
  intros Hi Ht. unfold prepare_data.
  fold (inp_of dir) (out_of dir).
  erewrite bind_return by (unfold load; rewrite Hi; reflexivity). cbv beta iota.
  erewrite bind_return by (unfold load; rewrite Ht; reflexivity). cbv beta iota.
  destruct (duration_difference t_aud t_sr i_aud i_sr) as [d | e | c] eqn:Ed.
  - erewrite bind_return by reflexivity.
    destruct (Float64.ltb d Float64.three).
    + erewrite bind_return by reflexivity.
      destruct (i_sr =? t_sr).
      * erewrite bind_return by reflexivity. reflexivity.
      * erewrite bind_raise by reflexivity. reflexivity.
    + erewrite bind_raise by reflexivity. reflexivity.
  - erewrite bind_raise by reflexivity. reflexivity.
  - erewrite bind_exit by reflexivity. reflexivity.
Qed.

Lemma duration_difference_no_exit (t_aud i_aud : ndarray) (t_sr i_sr c : Z) :
  duration_difference t_aud t_sr i_aud i_sr <> Exit c.
Proof.
  unfold duration_difference.
  destruct (Float64.int_truediv (Z.of_nat (length t_aud)) t_sr) eqn:Et;
    try discriminate.
  - destruct (Float64.int_truediv (Z.of_nat (length i_aud)) i_sr) eqn:Ei;
      try discriminate.
    intros _. exact (Float64Facts.int_truediv_no_exit _ _ _ Ei).
  - intros _. exact (Float64Facts.int_truediv_no_exit _ _ _ Et).
Qed.

Lemma main_unfold (args : namespace) (w : world) :
  main X args w =
    (fn ← prepare_data X (data_dir args) ;
     model_dir ← train X (trainer args) fn (model_type args)
                       (skip_connection args) (epochs args) ;
     export_aidax X (trainer args) model_dir (out_dir args))
      (log_stdout (device_line X) w).
Proof. reflexivity. Qed.

(** An error of data preparation is the error of the whole run. *)
Lemma main_prepare_raise (args : namespace) (w w' : world) (e : exn) :
  prepare_data X (data_dir args) (log_stdout (device_line X) w) = (Raise e, w') ->
  main X args w = (Raise e, w').
Proof. intros H. rewrite main_unfold. now apply bind_raise. Qed.

(** C2: two loaded files whose sample rates differ, or for which the
    difference the script computes (each sample count divided by the
    file's own rate, the quotients and their difference in binary64) is
    3.0 or more, make data preparation fail; the run ends there with a
    non-zero status, and no child process has been started.  The
    difference is the computed one: durations exactly 3 s apart can
    compute to less. *)
Theorem prepare_data_rejects_mismatch
    (w : world) (dir : string) (i_aud t_aud : ndarray) (i_sr t_sr : Z) :
  librosa_load X (fs w) (inp_of dir) = Return (i_aud, i_sr) ->
  librosa_load X (fs w) (out_of dir) = Return (t_aud, t_sr) ->
  (i_sr <> t_sr \/
   exists d, duration_difference t_aud t_sr i_aud i_sr = Return d /\
             Float64.leb Float64.three d = true) ->
  exists e,
    prepare_data X dir w = (Raise e, w) /\
    forall args, data_dir args = dir ->
      exists w', main X args w = (Raise e, w') /\
                 spawned w' = spawned w /\
                 exit_status (fst (main X args w)) <> 0.
Proof.
  intros Hi Ht Hbad.
  assert (Hall : exists e, forall w1, fs w1 = fs w ->
                   prepare_data X dir w1 = (Raise e, w1)).
  { destruct (duration_difference t_aud t_sr i_aud i_sr) as [d | e | c] eqn:Ed.
    - destruct (Float64.ltb d Float64.three) eqn:Elt.
      + destruct Hbad as [Hsr | (d' & [= <-] & Hle)].
        * exists (AssertionError "Sample rates differ"). intros w1 Hfs.
          rewrite (prepare_data_loaded w1 dir i_aud t_aud i_sr t_sr)
            by (rewrite Hfs; assumption).
          rewrite Ed, Elt.
          destruct (Z.eqb_spec i_sr t_sr); [contradiction | reflexivity].
        * apply Float64Facts.leb_not_ltb in Hle. congruence.
      + exists (AssertionError "Input/Target lengths differ too much"). intros w1 Hfs.
        rewrite (prepare_data_loaded w1 dir i_aud t_aud i_sr t_sr)
          by (rewrite Hfs; assumption).
        now rewrite Ed, Elt.
    - exists e. intros w1 Hfs.
      rewrite (prepare_data_loaded w1 dir i_aud t_aud i_sr t_sr)
        by (rewrite Hfs; assumption).
      now rewrite Ed.
    - now apply duration_difference_no_exit in Ed. }
  destruct Hall as [e Hall].
  exists e. split; [now apply Hall |].
  intros args <-.
  exists (log_stdout (device_line X) w).
  assert (Hm : main X args w = (Raise e, log_stdout (device_line X) w))
    by (apply main_prepare_raise, Hall; reflexivity).
  rewrite Hm. repeat split. discriminate.
Qed.

(** After the [try] statement [prepare_data] only returns its tag. *)
Lemma prepare_data_valid (w : world) (dir : string)
      (i_aud t_aud : ndarray) (i_sr t_sr : Z) (d : Float64.float) :
  librosa_load X (fs w) (inp_of dir) = Return (i_aud, i_sr) ->
  librosa_load X (fs w) (out_of dir) = Return (t_aud, t_sr) ->
  duration_difference t_aud t_sr i_aud i_sr = Return d ->
  Float64.ltb d Float64.three = true ->
  i_sr = t_sr ->
  prepare_data X dir w =
    match prep_helpers X (inp_of dir) (out_of dir) w with
    | (Return _, w') => (Return "amp", w')
    | (Raise e, w') => (Return "amp", log_stderr (prep_warning X e) w')
    | (Exit c, w') => (Exit c, w')
    end.
Proof.
  intros Hi Ht Hd Hlt ->.
  rewrite (prepare_data_loaded w dir i_aud t_aud t_sr t_sr Hi Ht), Hd, Hlt, Z.eqb_refl.
  destruct (try_helpers_cases (inp_of dir) (out_of dir) w)
    as [(w' & E & T) | [(e & w' & E & T) | (c & w' & E & T)]]; rewrite E.
  - now rewrite (bind_return _ _ _ _ _ T).
  - now rewrite (bind_return _ _ _ _ _ T).
  - now rewrite (bind_exit _ _ _ _ _ T).
Qed.





Lemma duration_difference_raises (t_aud i_aud : ndarray) (t_sr i_sr : Z) (e : exn) :
  duration_difference t_aud t_sr i_aud i_sr = Raise e ->
  forall msg, e <> AssertionError msg.
Proof.
  assert (Hdiv : forall a b e', Float64.int_truediv a b = Raise e' ->
                   forall msg, e' <> AssertionError msg).
  { intros a b e'. unfold Float64.int_truediv.
    destruct (b =? 0); [intros [= <-]; discriminate |].
    destruct (Float64.is_infinite _); [intros [= <-]; discriminate | discriminate]. }
  unfold duration_difference.
  destruct (Float64.int_truediv (Z.of_nat (length t_aud)) t_sr) eqn:Et;
    try discriminate.
  - destruct (Float64.int_truediv (Z.of_nat (length i_aud)) i_sr) eqn:Ei;
      try discriminate.
    intros [= <-]. eauto.
  - intros [= <-]. eauto.
Qed.

(** C10: the duration assertion comes first.  A loaded pair whose
    computed difference of durations is 3.0 or more is rejected with the
    length message whatever the two sample rates are, and the sample-rate
    message is only ever raised for a pair whose computed difference is
    less than 3.0 (and whose rates differ).  The difference is the
    computed one. *)
Theorem duration_checked_before_rate
    (w : world) (dir : string) (i_aud t_aud : ndarray) (i_sr t_sr : Z) :
  librosa_load X (fs w) (inp_of dir) = Return (i_aud, i_sr) ->
  librosa_load X (fs w) (out_of dir) = Return (t_aud, t_sr) ->
  (forall d,
      duration_difference t_aud t_sr i_aud i_sr = Return d ->
      Float64.leb Float64.three d = true ->
      prepare_data X dir w =
        (Raise (AssertionError "Input/Target lengths differ too much"), w)) /\
  (forall w',
      prepare_data X dir w = (Raise (AssertionError "Sample rates differ"), w') ->
      exists d,
        duration_difference t_aud t_sr i_aud i_sr = Return d /\
        Float64.ltb d Float64.three = true /\
        Float64.leb Float64.three d = false /\
        i_sr <> t_sr).
Proof.
  intros Hi Ht.
  rewrite (prepare_data_loaded w dir i_aud t_aud i_sr t_sr Hi Ht).
  split.
  - intros d -> Hle. now rewrite (Float64Facts.leb_not_ltb _ _ Hle).
  - intros w'.
    destruct (duration_difference t_aud t_sr i_aud i_sr) as [d | e | c] eqn:Ed.
    + destruct (Float64.ltb d Float64.three) eqn:Elt.
      * destruct (Z.eqb_spec i_sr t_sr) as [Heq | Hne].
        -- intros H. exfalso.
           destruct (try_helpers_cases (inp_of dir) (out_of dir) w)
             as [(w1 & _ & T) | [(e & w1 & _ & T) | (c & w1 & _ & T)]].
           ++ rewrite (bind_return _ _ _ _ _ T) in H. discriminate.
           ++ rewrite (bind_return _ _ _ _ _ T) in H. discriminate.
           ++ rewrite (bind_exit _ _ _ _ _ T) in H. discriminate.
        -- intros _. exists d. repeat split; try assumption.
           now apply Float64Facts.ltb_not_leb.
      * discriminate.
    + intros [= -> _]. now destruct (duration_difference_raises _ _ _ _ _ Ed "Sample rates differ").
    + discriminate.
Qed.

(** What the handler does not stop: a helper that ends the interpreter
    ([sys.exit], an interrupt) ends [prepare_data] with it. *)
Lemma helper_exit_propagates
    (w w1 : world) (dir : string) (i_aud t_aud : ndarray) (i_sr t_sr : Z)
    (d : Float64.float) (c : Z) :
  librosa_load X (fs w) (inp_of dir) = Return (i_aud, i_sr) ->
  librosa_load X (fs w) (out_of dir) = Return (t_aud, t_sr) ->
  i_sr = t_sr ->
  duration_difference t_aud t_sr i_aud i_sr = Return d ->
  Float64.ltb d Float64.three = true ->
  prep_helpers X (inp_of dir) (out_of dir) w = (Exit c, w1) ->
  prepare_data X dir w = (Exit c, w1).
Proof.
  intros Hi Ht Hsr Hd Hlt E.
  rewrite (prepare_data_valid w dir i_aud t_aud i_sr t_sr d) by assumption.
  now rewrite E.
Qed.

End DataPreparation.

(** ** Training *)

Section Training.

Variable X : externals.

(** [train] on a label of the table: one child, and its exit status
    decides. *)
Lemma train_known_label
    (w : world) (trainer_dir file_name label : string) (skip : bool) (eps : Z)
    (cfg : string) :
  model_configs !! label = Some cfg ->
  train X trainer_dir file_name label skip eps w =
    let sc := if skip then 1 else 0 in
    let cmd := train_cmd cfg file_name sc eps in
    let w1 := train_started trainer_dir cmd w in
    match run_child X cmd trainer_dir (train_env (environ w)) (fs w) with
    | SpawnError err => (Raise err, w1)
    | Exited rc fs' =>
        if rc =? 0
        then (Return (results_dir trainer_dir file_name cfg sc), with_fs fs' w1)
        else (Raise (CalledProcessError rc cmd), with_fs fs' w1)
    end.
Proof.
  intros Hcfg. unfold train, dict_getitem. rewrite Hcfg.
  erewrite bind_return by reflexivity.
  erewrite bind_return by reflexivity.
  erewrite bind_return by reflexivity.
  cbv zeta.
  set (cmd := train_cmd cfg file_name (if skip then 1 else 0) eps).
  unfold mbind, M_bind, bind, subprocess_check_call. simpl.
  destruct (run_child X cmd trainer_dir (train_env (environ w)) (fs w)) as [err | rc fs'];
    [reflexivity |].
  destruct (rc =? 0); reflexivity.
Qed.

Lemma train_unknown_label
    (w : world) (trainer_dir file_name label : string) (skip : bool) (eps : Z) :
  model_configs !! label = None ->
  train X trainer_dir file_name label skip eps w = (Raise (KeyError label), w).
Proof.
  intros Hcfg. unfold train, dict_getitem. rewrite Hcfg.
  now erewrite bind_raise by reflexivity.
Qed.

Lemma model_configs_lookup (label : string) :
  model_configs !! label =
    if decide ("Heavy" = label) then Some "LSTM-20"
    else if decide ("Standard" = label) then Some "LSTM-16"
    else if decide ("Light" = label) then Some "LSTM-12"
    else if decide ("Lightest" = label) then Some "LSTM-8"
    else None.
Proof.
  unfold model_configs. rewrite !lookup_insert, lookup_empty. reflexivity.
Qed.

(** C4: the table of hidden-layer configurations is exactly
    Lightest -> LSTM-8, Light -> LSTM-12, Standard -> LSTM-16,
    Heavy -> LSTM-20.  Subscripting it with one of the four labels gives
    that string, and it is that string [train] then passes to the child
    after [-l]; [train] given any other label raises [KeyError] at once:
    no child is started and the world is as it was. *)
Theorem model_type_table :
  (forall label cfg,
      model_configs !! label = Some cfg <->
      (label = "Lightest" /\ cfg = "LSTM-8") \/
      (label = "Light" /\ cfg = "LSTM-12") \/
      (label = "Standard" /\ cfg = "LSTM-16") \/
      (label = "Heavy" /\ cfg = "LSTM-20")) /\
  (forall (w : world) (trainer_dir file_name label cfg : string) (skip : bool) (eps : Z),
      (label = "Lightest" /\ cfg = "LSTM-8") \/
      (label = "Light" /\ cfg = "LSTM-12") \/
      (label = "Standard" /\ cfg = "LSTM-16") \/
      (label = "Heavy" /\ cfg = "LSTM-20") ->
      dict_getitem model_configs label w = (Return cfg, w) /\
      spawned (snd (train X trainer_dir file_name label skip eps w)) =
        (spawned w ++
           [Spawn ["python3"; "dist_model_recnet.py"; "-l"; cfg; "-fn"; file_name;
                   "-sc"; if skip then "1" else "0"; "-eps"; str_int eps]
                  trainer_dir (train_env (environ w))])%list) /\
  (forall (w : world) (trainer_dir file_name label : string) (skip : bool) (eps : Z),
      label <> "Lightest" -> label <> "Light" ->
      label <> "Standard" -> label <> "Heavy" ->
      train X trainer_dir file_name label skip eps w = (Raise (KeyError label), w)).
Proof.
  assert (Htable : forall label cfg,
      model_configs !! label = Some cfg <->
      (label = "Lightest" /\ cfg = "LSTM-8") \/
      (label = "Light" /\ cfg = "LSTM-12") \/
      (label = "Standard" /\ cfg = "LSTM-16") \/
      (label = "Heavy" /\ cfg = "LSTM-20")).
  { intros label cfg. rewrite model_configs_lookup. split.
    - repeat case_decide; subst; intros [= <-]; tauto.
    - intros [[-> ->] | [[-> ->] | [[-> ->] | [-> ->]]]]; reflexivity. }
  split; [exact Htable |]. split.
  - intros w trainer_dir file_name label cfg skip eps Hpair.
    apply Htable in Hpair. split.
    + unfold dict_getitem. now rewrite Hpair.
    + rewrite (train_known_label w trainer_dir file_name label skip eps cfg Hpair).
      cbv zeta. unfold train_cmd.
      replace (str_int (if skip then 1 else 0)) with (if skip then "1" else "0")
        by (destruct skip; reflexivity).
      destruct (run_child X _ _ _ _) as [err | rc fs']; [reflexivity |].
      destruct (rc =? 0); reflexivity.
  - intros w trainer_dir file_name label skip eps H1 H2 H3 H4.
    apply train_unknown_label. rewrite model_configs_lookup.
    repeat case_decide; congruence.
Qed.

(** C5: the training child is started exactly once, with the argument
    vector [python3 dist_model_recnet.py -l cfg -fn file_name -sc s -eps
    epochs] where [s] is "1" for a set skip flag and "0" otherwise, in the
    trainer directory, and in the wrapper's environment overridden at
    [TF_CPP_MIN_LOG_LEVEL] with "3" and at [CUBLAS_WORKSPACE_CONFIG] with
    ":4096:2"; it is the exit of that very child that [train] waits
    for. *)
Theorem train_spawns_exact_command
    (w : world) (trainer_dir file_name label : string) (skip : bool) (eps : Z)
    (cfg : string) :
  model_configs !! label = Some cfg ->
  let cmd := ["python3"; "dist_model_recnet.py"; "-l"; cfg; "-fn"; file_name;
              "-sc"; if skip then "1" else "0"; "-eps"; str_int eps] in
  let env := <["CUBLAS_WORKSPACE_CONFIG" := ":4096:2"]>
               (<["TF_CPP_MIN_LOG_LEVEL" := "3"]> (environ w)) in
  spawned (snd (train X trainer_dir file_name label skip eps w))
    = (spawned w ++ [Spawn cmd trainer_dir env])%list /\
  env !! "TF_CPP_MIN_LOG_LEVEL" = Some "3" /\
  env !! "CUBLAS_WORKSPACE_CONFIG" = Some ":4096:2" /\
  (forall k, k <> "TF_CPP_MIN_LOG_LEVEL" -> k <> "CUBLAS_WORKSPACE_CONFIG" ->
             env !! k = environ w !! k) /\
  fst (train X trainer_dir file_name label skip eps w) =
    match run_child X cmd trainer_dir env (fs w) with
    | SpawnError err => Raise err
    | Exited rc _ =>
        if rc =? 0
        then Return (results_dir trainer_dir file_name cfg (if skip then 1 else 0))
        else Raise (CalledProcessError rc cmd)
    end.
Proof.
  intros Hcfg cmd env.
  rewrite (train_known_label w trainer_dir file_name label skip eps cfg Hcfg).
  cbv zeta. unfold train_cmd.
  replace (str_int (if skip then 1 else 0)) with (if skip then "1" else "0")
    by (destruct skip; reflexivity).
  fold cmd. change (train_env (environ w)) with env.
  repeat split.
  - destruct (run_child X cmd trainer_dir env (fs w)) as [err | rc fs'];
      [reflexivity |].
    destruct (rc =? 0); reflexivity.
  - subst env. rewrite lookup_insert_ne by discriminate.
    apply lookup_insert_eq.
  - subst env. apply lookup_insert_eq.
  - intros k H1 H2. subst env. rewrite !lookup_insert_ne by congruence. reflexivity.
  - destruct (run_child X cmd trainer_dir env (fs w)) as [err | rc fs'];
      [reflexivity |].
    destruct (rc =? 0); reflexivity.
Qed.

End Training.

(** ** Export and the whole run *)

Section Pipeline.

Variable X : externals.

Import OSFacts FsFacts LibraryFacts.

(** *** Steps that leave processes and environment alone *)

Lemma quiet_bind {A B} (m : M A) (k : A -> M B) :
  quiet m -> (forall a, quiet (k a)) -> quiet (m ≫= k).
Proof.
  intros Hm Hk w. unfold mbind, M_bind, bind.
  specialize (Hm w). destruct (m w) as [[a | e | c] w1]; simpl in *; try exact Hm.
  destruct (Hk a w1) as [H1 H2]. destruct Hm as [H3 H4]. split; congruence.
Qed.

Lemma quiet_makedirs name : quiet (os_makedirs_exist_ok name).
Proof. apply fs_only_quiet, fs_only_makedirs. Qed.

Lemma quiet_copyfile src dst : quiet (shutil_copyfile src dst).
Proof. apply fs_only_quiet, fs_only_copyfile. Qed.

Lemma quiet_print args : quiet (print args).
Proof. intros w. now split. Qed.

Lemma quiet_print_text args : quiet (print_text X args).
Proof. intros w. unfold print_text. now destruct (stdout_encodes X _). Qed.

(** *** The primitives, read backwards from a normal return *)

Lemma check_call_return_inv cmd dir env w u w' :
  subprocess_check_call X cmd dir env w = (Return u, w') ->
  exists fs',
    run_child X cmd dir (default (environ w) env) (fs w) = Exited 0 fs' /\
    w' = with_fs fs' (log_spawn (Spawn cmd dir (default (environ w) env)) w).
Proof.
  unfold subprocess_check_call.
  destruct (run_child X cmd dir (default (environ w) env) (fs w)) as [err | rc fs'];
    [discriminate |].
  destruct (Z.eqb_spec rc 0) as [-> |]; [| discriminate].
  intros [= _ <-]. now exists fs'.
Qed.

Lemma makedirs_return_inv name w u w' :
  os_makedirs_exist_ok name w = (Return u, w') -> name <> "" /\ extends w w'.
Proof.
  intros H. split.
  - intros ->. now rewrite makedirs_empty_name in H.
  - pose proof (makedirs_extends (S (String.length name)) name w) as He.
    fold (os_makedirs_exist_ok name) in He. now rewrite H in He.
Qed.

Lemma print_text_return_inv args w u w' :
  print_text X args w = (Return u, w') ->
  stdout_encodes X (String.concat " " args) = true /\
  w' = log_stdout (String.concat " " args) w.
Proof.
  unfold print_text. destruct (stdout_encodes X _); [| discriminate].
  now intros [= _ <-].
Qed.

(** *** Export *)

(** The four names of the export step are names of entries, and no two
    of them are the same entry. *)
Lemma export_entry_names :
  entry_name "model_keras.json" = true /\ entry_name "model_best.json" = true /\
  entry_name "model-lstm.aidax" = true /\ entry_name "model-lstm.nam" = true.
Proof. repeat split. Qed.

Lemma export_aidax_run (trainer_dir model_dir out_dir : string) (w : world) :
  export_aidax X trainer_dir model_dir out_dir w =
    (subprocess_check_call X (convert_cmd model_dir) trainer_dir None ;;
     os_makedirs_exist_ok out_dir ;;
     shutil_copyfile (path_join trainer_dir ["model_keras.json"])
                     (path_join out_dir ["model-lstm.aidax"]) ;;
     shutil_copyfile (path_join model_dir ["model_best.json"])
                     (path_join out_dir ["model-lstm.nam"]) ;;
     print_text X [confirmation out_dir]) w.
Proof. reflexivity. Qed.

(** Directory, first copy, second copy: what the two copies leave, given
    the file system [f2] in which the output directory has been made. *)
Lemma two_copies (f2 : filesystem) (trainer_dir model_dir out_dir : string)
      (kb bb : list Byte.byte) (la ln : location) :
  let keras := path_join trainer_dir ["model_keras.json"] in
  let best := path_join model_dir ["model_best.json"] in
  let aidax := path_join out_dir ["model-lstm.aidax"] in
  let nam := path_join out_dir ["model-lstm.nam"] in
  let f3 := write la kb f2 in
  let f4 := write ln bb f3 in
  out_dir <> "" ->
  read_file f2 keras = inr kb -> creat f2 aidax = inr la ->
  read_file f3 best = inr bb -> creat f3 nam = inr ln ->
  exists dir,
    la = child dir "model-lstm.aidax" /\ ln = child dir "model-lstm.nam" /\
    resolve f2 out_dir = inr (dir, Dir) /\
    resolve f4 out_dir = inr (dir, Dir) /\
    resolve f4 aidax = inr (la, File kb) /\
    resolve f4 nam = inr (ln, File bb) /\
    f4 !! keras = Some (File kb) /\
    f4 !! best = Some (File bb).
Proof.
  intros keras best aidax nam f3 f4 Hout Hrk Hca Hrb Hcn.
  destruct export_entry_names as (Nk & Nb & Na & Nn).
  destruct (creat_join_inv f2 out_dir _ la Na Hca) as (dir & Hla & Hfree_a & _ & _ & Hd2).
  destruct (creat_join_inv f3 out_dir _ ln Nn Hcn) as (dir' & Hln & Hfree_n & _ & _ & Hd3).
  specialize (Hd2 Hout). specialize (Hd3 Hout).
  assert (Hla0 : la <> []) by (rewrite Hla; apply child_not_root).
  assert (Hln0 : ln <> []) by (rewrite Hln; apply child_not_root).
  (* the second copy finds the directory of the first *)
  pose proof (resolve_write f2 la kb Hfree_a out_dir dir Dir Hla0 Hd2) as Hd3'.
  fold f3 in Hd3'. rewrite Hd3 in Hd3'. injection Hd3' as -> _.
  assert (Han : la <> ln) by (rewrite Hla, Hln; intros [_ [=]]%child_inj).
  (* the sources are entries of other names *)
  destruct (read_file_inv _ _ _ Hrk) as [lk Hk2].
  destruct (read_file_inv _ _ _ Hrb) as [lb Hb3].
  destruct (resolve_join_inv f2 trainer_dir _ lk _ Nk Hk2) as (dk & Hlk & _).
  destruct (resolve_join_inv f3 model_dir _ lb _ Nb Hb3) as (db & Hlb & _).
  assert (Hka : lk <> la) by (rewrite Hlk, Hla; intros [_ [=]]%child_inj).
  assert (Hkn : lk <> ln) by (rewrite Hlk, Hln; intros [_ [=]]%child_inj).
  assert (Hbn : lb <> ln) by (rewrite Hlb, Hln; intros [_ [=]]%child_inj).
  exists dir. split; [exact Hla |]. split; [exact Hln |]. split; [exact Hd2 |].
  split; [| split; [| split; [| split]]].
  - pose proof (resolve_write f3 ln bb Hfree_n out_dir dir Dir Hln0 Hd3) as Hd4.
    fold f4 in Hd4. rewrite Hd4.
    case_decide as E; [| reflexivity].
    rewrite Hln in E. now destruct (child_not_self dir "model-lstm.nam").
  - pose proof (resolve_written f2 out_dir _ la kb Na Hca) as Ha3. fold f3 aidax in Ha3.
    pose proof (resolve_write f3 ln bb Hfree_n aidax la _ Hln0 Ha3) as Ha4.
    fold f4 in Ha4. rewrite Ha4.
    case_decide; [contradiction | reflexivity].
  - exact (resolve_written f3 out_dir _ ln bb Nn Hcn).
  - pose proof (resolve_write f2 la kb Hfree_a keras lk _ Hla0 Hk2) as Hk3. fold f3 in Hk3.
    destruct (decide (lk = la)); [contradiction |].
    pose proof (resolve_write f3 ln bb Hfree_n keras lk _ Hln0 Hk3) as Hk4. fold f4 in Hk4.
    destruct (decide (lk = ln)); [contradiction |].
    unfold lookup, filesystem_lookup. now rewrite Hk4.
  - pose proof (resolve_write f3 ln bb Hfree_n best lb _ Hln0 Hb3) as Hb4. fold f4 in Hb4.
    destruct (decide (lb = ln)); [contradiction |].
    unfold lookup, filesystem_lookup. now rewrite Hb4.
Qed.

(** A normal return of the export step: the conversion child exited
    with 0 and the bundle is in place. *)
Lemma export_aidax_returns (trainer_dir model_dir out_dir : string) (w w' : world) :
  export_aidax X trainer_dir model_dir out_dir w = (Return tt, w') ->
  exists fs_conv,
    run_child X (convert_cmd model_dir) trainer_dir (environ w) (fs w)
      = Exited 0 fs_conv /\
    export_bundle trainer_dir model_dir out_dir fs_conv (fs w').
Proof.
  rewrite export_aidax_run. intros H.
  apply bind_return_inv in H as (u1 & w1 & H1 & H).
  apply bind_return_inv in H as (u2 & w2 & H2 & H).
  apply bind_return_inv in H as (u3 & w3 & H3 & H).
  apply bind_return_inv in H as (u4 & w4 & H4 & H).
  apply check_call_return_inv in H1 as (fs_conv & Hrun & ->).
  apply makedirs_return_inv in H2 as (Hout & f2 & -> & Hgrow & Hsame).
  apply copyfile_return_inv in H3 as (kb & la & Hrk & Hca & ->).
  apply copyfile_return_inv in H4 as (bb & ln & Hrb & Hcn & ->).
  apply print_text_return_inv in H as (_ & ->).
  cbn [fs with_fs log_spawn log_stdout] in *. cbn [default] in Hrun.
  exists fs_conv. split; [exact Hrun |].
  destruct (two_copies f2 trainer_dir model_dir out_dir kb bb la ln Hout Hrk Hca Hrb Hcn)
    as (dir & -> & -> & _ & Hd & Ha & Hn & Hk & Hb).
  exists dir, kb, bb. repeat split; try assumption.
  intros l Hl1 Hl2. cbn [nodes write].
  rewrite lookup_insert_ne by congruence. rewrite lookup_insert_ne by congruence.
  apply Hsame.
Qed.

(** *** The whole run *)

Lemma prepare_data_tag (dir : string) (w w' : world) (fn : string) :
  prepare_data X dir w = (Return fn, w') -> fn = "amp".
Proof.
  unfold prepare_data. intros H.
  apply bind_return_inv in H as ([i_aud i_sr] & w1 & _ & H).
  apply bind_return_inv in H as ([t_aud t_sr] & w2 & _ & H).
  apply bind_return_inv in H as (d & w3 & _ & H).
  apply bind_return_inv in H as (u1 & w4 & _ & H).
  apply bind_return_inv in H as (u2 & w5 & _ & H).
  apply bind_return_inv in H as (u3 & w6 & _ & H).
  now inversion H.
Qed.

Lemma train_returns_inv
    (w w' : world) (trainer_dir file_name label : string) (skip : bool) (eps : Z)
    (dir : string) :
  train X trainer_dir file_name label skip eps w = (Return dir, w') ->
  exists cfg,
    model_configs !! label = Some cfg /\
    dir = results_dir trainer_dir file_name cfg (if skip then 1 else 0).
Proof.
  destruct (model_configs !! label) as [cfg |] eqn:Hcfg.
  - rewrite (train_known_label X w _ _ _ _ _ cfg Hcfg). cbv zeta.
    destruct (run_child X _ _ _ _) as [err | rc fs']; [discriminate |].
    destruct (rc =? 0); [| discriminate].
    intros [= <- _]. now exists cfg.
  - rewrite (train_unknown_label X w _ _ _ _ _ Hcfg). discriminate.
Qed.

(** C1: after a run of [main] that returns normally, the conversion
    child has exited with 0, the output directory is a directory, and
    directly in it are [model-lstm.aidax] with the bytes of
    [<trainer>/model_keras.json] and [model-lstm.nam] with the bytes of the
    model directory's [model_best.json]; apart from these two files the
    tree is as the conversion child left it, but for directories made
    where there was nothing (the output directory and its missing
    parents).  And making the output directory succeeds when it is there
    already: nothing is made and nothing changes. *)
Theorem successful_run_exports_bundle (args : namespace) :
  (forall w w',
      main X args w = (Return tt, w') ->
      exists cfg w_t fs_conv,
        let model_dir := results_dir (trainer args) "amp" cfg
                                     (if skip_connection args then 1 else 0) in
        model_configs !! model_type args = Some cfg /\
        export_aidax X (trainer args) model_dir (out_dir args) w_t = (Return tt, w') /\
        run_child X (convert_cmd model_dir) (trainer args) (environ w_t) (fs w_t)
          = Exited 0 fs_conv /\
        export_bundle (trainer args) model_dir (out_dir args) fs_conv (fs w')) /\
  (forall w,
      fs w !! out_dir args = Some Dir ->
      os_makedirs_exist_ok (out_dir args) w = (Return tt, w)).
Proof.
  split.
  - intros w w' H. rewrite main_unfold in H.
    apply bind_return_inv in H as (fn & w_p & Hprep & H).
    apply prepare_data_tag in Hprep as ->.
    apply bind_return_inv in H as (model_dir & w_t & Htrain & H).
    apply train_returns_inv in Htrain as (cfg & Hcfg & ->).
    destruct (export_aidax_returns _ _ _ _ _ H) as (fs_conv & Hrun & Hbundle).
    now exists cfg, w_t, fs_conv.
  - intros w. apply makedirs_existing.
Qed.

(** C6: when the training child exits with a non-zero status, [train]
    raises [CalledProcessError] and so does [main]; the training child is
    the last process started (the conversion child never is), the file
    system stays as the training child left it (no directory made, no
    file copied), and the interpreter exits with a non-zero status. *)
Theorem failed_training_stops_the_run
    (args : namespace) (w w1 : world) (fn cfg : string) (rc : Z)
    (fs' : filesystem) :
  let cmd := train_cmd cfg fn (if skip_connection args then 1 else 0) (epochs args) in
  let w2 := with_fs fs' (train_started (trainer args) cmd w1) in
  prepare_data X (data_dir args) (log_stdout (device_line X) w) = (Return fn, w1) ->
  model_configs !! model_type args = Some cfg ->
  run_child X cmd (trainer args) (train_env (environ w1)) (fs w1) = Exited rc fs' ->
  rc <> 0 ->
  train X (trainer args) fn (model_type args) (skip_connection args) (epochs args) w1
    = (Raise (CalledProcessError rc cmd), w2) /\
  main X args w = (Raise (CalledProcessError rc cmd), w2) /\
  spawned w2
    = (spawned w1 ++ [Spawn cmd (trainer args) (train_env (environ w1))])%list /\
  fs w2 = fs' /\
  exit_status (fst (main X args w)) <> 0.
Proof.
  intros cmd w2 Hprep Hcfg Hrun Hrc.
  assert (Htrain :
            train X (trainer args) fn (model_type args) (skip_connection args)
                  (epochs args) w1
            = (Raise (CalledProcessError rc cmd), w2)).
  { rewrite (train_known_label X w1 _ _ _ _ _ cfg Hcfg). cbv zeta.
    fold cmd. rewrite Hrun.
    destruct (Z.eqb_spec rc 0); [contradiction | reflexivity]. }
  assert (Hmain : main X args w = (Raise (CalledProcessError rc cmd), w2)).
  { rewrite main_unfold.
    rewrite (bind_return _ _ _ _ _ Hprep).
    now rewrite (bind_raise _ _ _ _ _ Htrain). }
  rewrite Hmain. repeat split; try assumption. discriminate.
Qed.

(** C7: when the training child exits with 0, [train] returns
    [os.path.join(trainer_dir, "Results", file_name_cfg-sc)], a string made
    of its arguments alone; the file system the child left is not
    consulted (it is any [fs'] here).  On a plain trainer directory and a
    relative file-name tag that string is
    [trainer_dir/Results/file_name_cfg-sc]. *)
Theorem train_returns_composed_path
    (w : world) (trainer_dir file_name label : string) (skip : bool) (eps : Z)
    (cfg : string) (fs' : filesystem) :
  let sc := if skip then "1" else "0" in
  model_configs !! label = Some cfg ->
  run_child X (train_cmd cfg file_name (if skip then 1 else 0) eps) trainer_dir
            (train_env (environ w)) (fs w) = Exited 0 fs' ->
  (exists w',
      train X trainer_dir file_name label skip eps w =
        (Return (path_join trainer_dir
                           ["Results"; file_name +:+ "_" +:+ cfg +:+ "-" +:+ sc]), w') /\
      fs w' = fs') /\
  (trainer_dir <> "" -> ends_with_sep trainer_dir = false ->
   starts_with_sep file_name = false ->
   path_join trainer_dir ["Results"; file_name +:+ "_" +:+ cfg +:+ "-" +:+ sc]
     = trainer_dir +:+ "/Results/" +:+ file_name +:+ "_" +:+ cfg +:+ "-" +:+ sc).
Proof.
  intros sc Hcfg Hrun. split.
  - rewrite (train_known_label X w _ _ _ _ _ cfg Hcfg). cbv zeta.
    rewrite Hrun. simpl (0 =? 0). cbv iota.
    exists (with_fs fs' (train_started trainer_dir
              (train_cmd cfg file_name (if skip then 1 else 0) eps) w)).
    split; [| reflexivity].
    unfold results_dir. subst sc. destruct skip; reflexivity.
  - intros Hne Hend Hrel.
    unfold path_join. cbn [fold_left].
    rewrite (OSFacts.join_plain trainer_dir "Results" Hne Hend eq_refl).
    rewrite OSFacts.join_plain.
    + now rewrite !OSFacts.app_assoc.
    + now apply OSFacts.app_nonempty.
    + rewrite OSFacts.ends_with_sep_last, OSFacts.last_char_app by discriminate.
      reflexivity.
    + destruct file_name as [| c rest]; [reflexivity | exact Hrel].
Qed.

Lemma train_keeps_environ
    (w : world) (trainer_dir file_name label : string) (skip : bool) (eps : Z) :
  environ (snd (train X trainer_dir file_name label skip eps w)) = environ w.
Proof.
  destruct (model_configs !! label) as [cfg |] eqn:Hcfg.
  - rewrite (train_known_label X w _ _ _ _ _ cfg Hcfg). cbv zeta.
    destruct (run_child X _ _ _ _) as [err | rc fs']; [reflexivity |].
    destruct (rc =? 0); reflexivity.
  - now rewrite (train_unknown_label X w _ _ _ _ _ Hcfg).
Qed.

(** The export step starts one child, whatever happens next, and hands
    it [os.environ] as it is. *)
Lemma export_spawns_with_environ (trainer_dir model_dir out_dir : string) (w : world) :
  spawned (snd (export_aidax X trainer_dir model_dir out_dir w))
    = (spawned w ++ [Spawn (convert_cmd model_dir) trainer_dir (environ w)])%list.
Proof.
  rewrite export_aidax_run.
  unfold mbind at 1, M_bind at 1, bind at 1.
  unfold subprocess_check_call at 1. simpl default.
  destruct (run_child X _ _ _ _) as [err | rc fs']; [reflexivity |].
  destruct (rc =? 0); [| reflexivity].
  match goal with
  | |- spawned (snd (?m ?w0)) = _ =>
      assert (Hq : quiet m); [| exact (proj1 (Hq w0))]
  end.
  repeat (apply quiet_bind; [| intros _]);
    auto using quiet_makedirs, quiet_copyfile, quiet_print, quiet_print_text.
Qed.

(** C9: the two variables [train] sets reach the training child only.
    [os.environ] is after [train] what it was before, and the conversion
    child that [export_aidax] then starts receives exactly that
    environment: each of the two variables has there the value it had in
    the wrapper's environment, or none if it had none. *)
Theorem train_env_is_scoped
    (w : world) (trainer_dir file_name label : string) (skip : bool) (eps : Z)
    (model_dir out_dir : string) :
  let w1 := snd (train X trainer_dir file_name label skip eps w) in
  let w2 := snd (export_aidax X trainer_dir model_dir out_dir w1) in
  environ w1 = environ w /\
  spawned w2
    = (spawned w1 ++
         [Spawn ["python3"; "modelToKeras.py"; "-lm";
                 path_join model_dir ["model_best.json"]]
                trainer_dir (environ w)])%list /\
  environ w2 = environ w.
Proof.
  intros w1 w2.
  assert (H1 : environ w1 = environ w) by apply train_keeps_environ.
  split; [exact H1 |]. split.
  - unfold w2. rewrite export_spawns_with_environ, H1. reflexivity.
  - rewrite <- H1. unfold w2. rewrite export_aidax_run.
    unfold mbind at 1, M_bind at 1, bind at 1.
    unfold subprocess_check_call at 1. simpl default.
    destruct (run_child X _ _ _ _) as [err | rc fs']; [reflexivity |].
    destruct (rc =? 0); [| reflexivity].
    match goal with
    | |- environ (snd (?m ?w0)) = _ =>
        assert (Hq : quiet m); [| exact (proj2 (Hq w0))]
    end.
    repeat (apply quiet_bind; [| intros _]);
      auto using quiet_makedirs, quiet_copyfile, quiet_print, quiet_print_text.
Qed.

End Pipeline.

(** ** The theorems at work on the concrete runs *)

Import Scenario MoreRuns.

(** The whole script on the stubs: what it prints, which children it
    starts and what it leaves. *)
Example good_run_transcript :
  let '(result, w) := main good args0 w0 in
  result = Return tt /\
  stdout w = ["Using device: cpu";
              ">> python3 dist_model_recnet.py -l LSTM-16 -fn amp -sc 0 -eps 200";
              "✅ wrote: res/model-lstm.aidax"] /\
  stderr w = ["[warn] prep helpers missing/failed (No module named 'colab_functions'); continuing with raw wavs."] /\
  map argv (spawned w) =
    [["python3"; "dist_model_recnet.py"; "-l"; "LSTM-16"; "-fn"; "amp";
      "-sc"; "0"; "-eps"; "200"];
     ["python3"; "modelToKeras.py"; "-lm"; "t/Results/amp_LSTM-16-0/model_best.json"]] /\
  fs w !! "res" = Some Dir /\
  fs w !! "res/model-lstm.nam" = Some (File best_json) /\
  fs w !! "res/model-lstm.aidax" = Some (File keras_json).
Proof. vm_compute. repeat split; reflexivity. Qed.

(** A nested output directory: the missing parent is made too. *)
Example nested_output_directory :
  let '(result, w) := main good args_nested w0 in
  result = Return tt /\
  fs w0 !! "out" = None /\
  fs w !! "out" = Some Dir /\
  fs w !! "out/nested" = Some Dir /\
  fs w !! "out/nested/model-lstm.aidax" = Some (File keras_json) /\
  fs w !! "out/nested/model-lstm.nam" = Some (File best_json).
Proof. vm_compute. repeat split; reflexivity. Qed.

(** An output directory spelled with a separator at its end, where a
    regular file of that name is: the name does not resolve, and
    [os.makedirs] fails on it. *)
Example slash_over_a_file :
  let w := with_fs (place "res" (File []) bare) w0 in
  fs w !! "res" = Some (File []) /\
  fs w !! "res/" = None /\
  fst (main good args_slash w) = Raise (FileExistsError "res/") /\
  fst (main good args_slash w0) = Return tt.
Proof. vm_compute. repeat split; reflexivity. Qed.

(** The confirmation on a standard output that takes ASCII only: the
    run ends with [UnicodeEncodeError], after both files were written. *)
Example confirmation_needs_the_encoding :
  let '(result, w) := main good_ascii args0 w0 in
  result = Raise (UnicodeEncodeError "✅ wrote: res/model-lstm.aidax") /\
  exit_status result = 1 /\
  stdout w = ["Using device: cpu";
              ">> python3 dist_model_recnet.py -l LSTM-16 -fn amp -sc 0 -eps 200"] /\
  fs w !! "res/model-lstm.nam" = Some (File best_json) /\
  fs w !! "res/model-lstm.aidax" = Some (File keras_json).
Proof. vm_compute. repeat split; reflexivity. Qed.

(** [os.makedirs] where the name leads through "..": the directory that
    is passed through is made, and the call returns although the name
    itself is a regular file. *)
Example makedirs_through_dotdot :
  let w := with_fs (place "f" (File []) bare) w0 in
  let '(result, w') := os_makedirs_exist_ok "a/../f/." w in
  result = Return tt /\
  fs w' !! "a" = Some Dir /\
  fs w' !! "f" = Some (File []).
Proof. vm_compute. repeat split; reflexivity. Qed.

(** [os.makedirs(name, exist_ok=True)] on the small tree: what it
    returns or raises for names of several shapes. *)
Example makedirs_outcomes :
  map (fun name => fst (os_makedirs_exist_ok name w_tree))
      [""; "res"; "res//"; "./res"; "x/y/."; "d"; "d/"; "d/..";
       "f"; "f/"; "f/x"; "d/g/x/y"; "/"] =
  [Raise (FileNotFoundError ""); Return tt; Return tt; Return tt; Return tt;
   Return tt; Return tt; Return tt;
   Raise (FileExistsError "f"); Raise (FileExistsError "f/");
   Raise (NotADirectoryError "f/x"); Raise (NotADirectoryError "d/g/x");
   Return tt].
Proof. vm_compute. reflexivity. Qed.

(** [shutil.copyfile] on the small tree. *)
Example copyfile_outcomes :
  map (fun '(src, dst) => fst (shutil_copyfile src dst w_tree))
      [("f", "n"); ("f", "d/g"); ("f", "./f"); ("d/g", "d/../d/g"); ("m", "n");
       ("d", "n"); ("f", "d"); ("f", "x/n"); ("f", "f/n"); ("f", "n/"); ("f", "")] =
  [Return tt; Return tt;
   Raise (SameFileError "f" "./f"); Raise (SameFileError "d/g" "d/../d/g");
   Raise (FileNotFoundError "m"); Raise (IsADirectoryError "d");
   Raise (IsADirectoryError "d"); Raise (FileNotFoundError "x/n");
   Raise (NotADirectoryError "f/n");
   Raise (OtherException "FileNotFoundError" "Directory does not exist: n/");
   Raise (FileNotFoundError "")].
Proof. vm_compute. reflexivity. Qed.

(** The comparison with 3.0 is one of binary64 values.  16 and 7 samples
    at 3 Hz are 3 s apart as fractions; the two quotients and their
    difference are rounded, and what is compared is 3.0 less one unit in
    the last place. *)
Example rounding_at_three_seconds :
  duration_difference (silence 16) 3 (silence 7) 3
    = Return (S754_finite false 6755399441055743 (-51)) /\
  Float64.ltb (S754_finite false 6755399441055743 (-51)) Float64.three = true.
Proof. split; vm_compute; reflexivity. Qed.

(** 5 s against 10 s at the same rate is rejected, before any child. *)
Lemma prepare_data_rejects_mismatch_witness :
  exists e,
    prepare_data long_target "data" w0 = (Raise e, w0) /\
    forall args, data_dir args = "data" ->
      exists w', main long_target args w0 = (Raise e, w') /\
                 spawned w' = spawned w0 /\
                 exit_status (fst (main long_target args w0)) <> 0.
Proof.
  apply (prepare_data_rejects_mismatch long_target w0 "data"
           (silence 40) (silence 80) 8 8).
  - reflexivity.
  - reflexivity.
  - right. exists five. split; vm_compute; reflexivity.
Defined.

(** C2 as it is worded does not hold: 7 and 16 samples at 3 Hz are files
    of one rate whose durations, 7/3 s and 16/3 s, differ by 3 s; data
    preparation accepts them, and the run goes on to start both
    children. *)
Lemma three_seconds_apart_is_accepted :
  librosa_load three_apart (fs w0) (inp_of "data") = Return (silence 7, 3) /\
  librosa_load three_apart (fs w0) (out_of "data") = Return (silence 16, 3) /\
  (exact_duration_difference (silence 16) 3 (silence 7) 3 == 3)%Q /\
  fst (prepare_data three_apart "data" w0) = Return "amp" /\
  fst (main three_apart args0 w0) = Return tt /\
  map argv (spawned (snd (main three_apart args0 w0))) =
    [["python3"; "dist_model_recnet.py"; "-l"; "LSTM-16"; "-fn"; "amp";
      "-sc"; "0"; "-eps"; "200"];
     ["python3"; "modelToKeras.py"; "-lm"; "t/Results/amp_LSTM-16-0/model_best.json"]].
Proof. repeat split; vm_compute; reflexivity. Qed.





(** 1 s at 8 Hz against 10 s at 4 Hz gets the length message; 2 s at 8 Hz
    against 4 s at 4 Hz gets the rate message, its durations being 2 s
    apart. *)
Lemma duration_checked_before_rate_witness :
  prepare_data both_wrong "data" w0 =
    (Raise (AssertionError "Input/Target lengths differ too much"), w0) /\
  exists d,
    duration_difference (silence 16) 4 (silence 16) 8 = Return d /\
    Float64.ltb d Float64.three = true /\
    Float64.leb Float64.three d = false /\
    8 <> 4.
Proof.
  split.
  - apply (proj1 (duration_checked_before_rate both_wrong w0 "data"
                    (silence 8) (silence 40) 8 4 eq_refl eq_refl)
                 (S754_finite false 5066549580791808 (-49))).
    + vm_compute. reflexivity.
    + vm_compute. reflexivity.
  - apply (proj2 (duration_checked_before_rate rate_only w0 "data"
                    (silence 16) (silence 16) 8 4 eq_refl eq_refl) w0).
    vm_compute. reflexivity.
Defined.

(** C10 as it is worded does not hold: 7 samples at 3 Hz and 32 samples
    at 6 Hz are 7/3 s and 32/6 s long, 3 s apart, and the error is the
    one of the sample rates. *)
Lemma rate_message_at_three_seconds :
  librosa_load three_apart_two_rates (fs w0) (inp_of "data") = Return (silence 7, 3) /\
  librosa_load three_apart_two_rates (fs w0) (out_of "data") = Return (silence 32, 6) /\
  (exact_duration_difference (silence 32) 6 (silence 7) 3 == 3)%Q /\
  prepare_data three_apart_two_rates "data" w0
    = (Raise (AssertionError "Sample rates differ"), w0).
Proof. repeat split; vm_compute; reflexivity. Qed.

(** The entry of Heavy, the command of a Heavy model, and a label outside
    the table, which stops [train] before anything happens. *)
Lemma model_type_table_witness :
  model_configs !! "Heavy" = Some "LSTM-20" /\
  (dict_getitem model_configs "Heavy" w0 = (Return "LSTM-20", w0) /\
   spawned (snd (train good "t" "amp" "Heavy" false 200 w0)) =
     [Spawn ["python3"; "dist_model_recnet.py"; "-l"; "LSTM-20"; "-fn"; "amp";
             "-sc"; "0"; "-eps"; str_int 200]
            "t" (train_env (environ w0))]) /\
  train good "t" "amp" "Huge" false 200 w0 = (Raise (KeyError "Huge"), w0).
Proof.
  destruct (model_type_table good) as (Htable & Hknown & Hother).
  split; [| split].
  - apply Htable. right. right. right. split; reflexivity.
  - apply (Hknown w0 "t" "amp" "Heavy" "LSTM-20" false 200).
    right. right. right. split; reflexivity.
  - apply Hother; discriminate.
Defined.

(** The command of a Heavy model with the skip connection, 200 epochs. *)
Lemma train_spawns_exact_command_witness :
  spawned (snd (train good "t" "amp" "Heavy" true 200 w0)) =
    [Spawn ["python3"; "dist_model_recnet.py"; "-l"; "LSTM-20"; "-fn"; "amp";
            "-sc"; "1"; "-eps"; "200"]
           "t"
           (<["CUBLAS_WORKSPACE_CONFIG" := ":4096:2"]>
              (<["TF_CPP_MIN_LOG_LEVEL" := "3"]> (<["PATH" := "/usr/bin"]> ∅)))].
Proof.
  apply (train_spawns_exact_command good w0 "t" "amp" "Heavy" true 200 "LSTM-20").
  vm_compute. reflexivity.
Defined.

(** A trainer that exits with status 2 ends the run with one child
    started and the file system as it was. *)
Lemma failed_training_stops_the_run_witness :
  let cmd := train_cmd "LSTM-16" "amp" 0 200 in
  let w1 := snd (prepare_data good_failing "data" (log_stdout (device_line good_failing) w0)) in
  main good_failing args0 w0 =
    (Raise (CalledProcessError 2 cmd), with_fs bare (train_started "t" cmd w1)) /\
  spawned (with_fs bare (train_started "t" cmd w1)) =
    [Spawn cmd "t" (train_env (environ w0))] /\
  exit_status (fst (main good_failing args0 w0)) <> 0.
Proof.
  intros cmd w1.
  destruct (failed_training_stops_the_run good_failing args0 w0 w1 "amp" "LSTM-16" 2 bare)
    as (_ & Hmain & Hspawned & _ & Hexit).
  - vm_compute. reflexivity.
  - vm_compute. reflexivity.
  - vm_compute. reflexivity.
  - discriminate.
  - repeat split; assumption.
Defined.

(** The returned directory of a Standard model without skip connection;
    the stub trainer of this run wrote one file under it, which [train]
    never looked for. *)
Lemma train_returns_composed_path_witness :
  (exists w',
      train good "t" "amp" "Standard" false 200 w0 =
        (Return (path_join "t" ["Results"; "amp" +:+ "_" +:+ "LSTM-16" +:+ "-" +:+ "0"]), w') /\
      fs w' = place "t/Results/amp_LSTM-16-0/model_best.json" (File best_json) bare) /\
  path_join "t" ["Results"; "amp" +:+ "_" +:+ "LSTM-16" +:+ "-" +:+ "0"]
    = "t/Results/amp_LSTM-16-0".
Proof.
  destruct (train_returns_composed_path good w0 "t" "amp" "Standard" false 200 "LSTM-16"
              (place "t/Results/amp_LSTM-16-0/model_best.json" (File best_json) bare))
    as (Hret & Hplain).
  - vm_compute. reflexivity.
  - vm_compute. reflexivity.
  - split; [exact Hret |]. apply Hplain; [discriminate | reflexivity | reflexivity].
Defined.

(** The whole run on the stubs, and the directory step once more where
    the directory is already there. *)
Lemma successful_run_exports_bundle_witness :
  (exists cfg w_t fs_conv,
      let model_dir := results_dir "t" "amp" cfg 0 in
      model_configs !! "Standard" = Some cfg /\
      export_aidax good "t" model_dir "res" w_t
        = (Return tt, snd (main good args0 w0)) /\
      run_child good (convert_cmd model_dir) "t" (environ w_t) (fs w_t)
        = Exited 0 fs_conv /\
      export_bundle "t" model_dir "res" fs_conv (fs (snd (main good args0 w0)))) /\
  os_makedirs_exist_ok "res" w_again = (Return tt, w_again).
Proof.
  split.
  - apply (proj1 (successful_run_exports_bundle good args0) w0).
    vm_compute. reflexivity.
  - apply (proj2 (successful_run_exports_bundle good args0) w_again).
    vm_compute. reflexivity.
Defined.

(** ** More on binary64: no NaN from the duration test, and its symmetry *)

Module Float64More.
Import Float64.

Lemma shr_1_nonneg (r : shr_record) : 0 <= shr_m r -> 0 <= shr_m (shr_1 r).
Proof.
  destruct r as [m b s]. simpl.
  destruct m as [| [p | p |] | p]; simpl; lia.
Qed.

Lemma iter_shr_1_nonneg (p : positive) (r : shr_record) :
  0 <= shr_m r -> 0 <= shr_m (SpecFloat.iter_pos shr_1 p r).
Proof.
  revert r. induction p as [p IH | p IH |]; intros r Hr; simpl.
  - apply IH, IH, shr_1_nonneg, Hr.
  - apply IH, IH, Hr.
  - apply shr_1_nonneg, Hr.
Qed.

Lemma shr_fexp_nonneg (m e : Z) (l : SpecFloat.location) :
  0 <= m -> 0 <= shr_m (fst (shr_fexp prec emax m e l)).
Proof.
  intros Hm. unfold shr_fexp, shr.
  assert (H0 : 0 <= shr_m (shr_record_of_loc m l))
    by (destruct l as [| []]; exact Hm).
  destruct (fexp prec emax (Zdigits2 m + e) - e) as [| p | p]; simpl;
    [exact H0 | | exact H0].
  now apply iter_shr_1_nonneg.
Qed.

Lemma round_nearest_even_nonneg (m : Z) (l : SpecFloat.location) :
  0 <= m -> 0 <= round_nearest_even m l.
Proof.
  intros Hm. unfold round_nearest_even.
  destruct l as [| []]; try destruct (Z.even m); lia.
Qed.

(** Rounding a non-negative mantissa never gives NaN. *)
Lemma binary_round_aux_not_nan (s : bool) (m e : Z) (l : SpecFloat.location) :
  0 <= m -> binary_round_aux prec emax s m e l <> S754_nan.
Proof.
  intros Hm. unfold binary_round_aux.
  pose proof (shr_fexp_nonneg m e l Hm) as H1.
  destruct (shr_fexp prec emax m e l) as [mrs' e']. simpl in H1.
  pose proof (shr_fexp_nonneg _ e' loc_Exact
                (round_nearest_even_nonneg _ (loc_of_shr_record mrs') H1)) as H2.
  destruct (shr_fexp prec emax _ e' loc_Exact) as [mrs'' e'']. simpl in H2.
  destruct (shr_m mrs'') as [| p | p]; [discriminate | | lia].
  destruct (e'' <=? emax - prec); discriminate.
Qed.

Lemma binary_round_not_nan (s : bool) (m : positive) (e : Z) :
  binary_round prec emax s m e <> S754_nan.
Proof.
  unfold binary_round.
  destruct (shl_align m e _) as [mz ez].
  apply binary_round_aux_not_nan. lia.
Qed.

Lemma binary_normalize_not_nan (m e : Z) (s : bool) :
  binary_normalize prec emax m e s <> S754_nan.
Proof.
  destruct m; simpl; [discriminate | |]; apply binary_round_not_nan.
Qed.

(** The quotient of two ints is never NaN. *)
Lemma int_truediv_not_nan (a b : Z) (q : float) :
  int_truediv a b = Return q -> q <> S754_nan /\ is_infinite q = false.
Proof.
  unfold int_truediv. destruct (b =? 0) eqn:Eb; [discriminate |].
  destruct (is_infinite _) eqn:Einf; [discriminate |].
  intros [= <-]. split; [| exact Einf].
  destruct a as [| pa | pa], b as [| pb | pb]; try discriminate; simpl;
    try (destruct (SFdiv_core_binary prec emax (Z.pos pa) 0 (Z.pos pb) 0)
           as [[mz ez] lz] eqn:Ecore;
         apply binary_round_aux_not_nan;
         unfold SFdiv_core_binary in Ecore;
         destruct (Z.div_eucl _ (Z.pos pb)) as [q r] eqn:Ediv;
         injection Ecore as <- _ _;
         match type of Ediv with
         | Z.div_eucl ?n _ = _ =>
             assert (Hn : 0 <= n) by
               (destruct (0 - 0 - _); [lia | apply Z.shiftl_nonneg; lia | lia]);
             pose proof (Z_div_mod n (Z.pos pb) ltac:(lia)) as Hdm;
             rewrite Ediv in Hdm; nia
         end).
Qed.

(** The sign given to a rounding only shows in the sign of its result. *)
Lemma abs_binary_round_aux (s s' : bool) (m e : Z) (l : SpecFloat.location) :
  SFabs (binary_round_aux prec emax s m e l)
  = SFabs (binary_round_aux prec emax s' m e l).
Proof.
  unfold binary_round_aux.
  destruct (shr_fexp prec emax m e l) as [mrs' e'].
  destruct (shr_fexp prec emax _ e' loc_Exact) as [mrs'' e''].
  destruct (shr_m mrs''); [reflexivity | | reflexivity].
  destruct (e'' <=? emax - prec); reflexivity.
Qed.

Lemma abs_binary_normalize_opp (m e : Z) :
  SFabs (binary_normalize prec emax (- m) e false)
  = SFabs (binary_normalize prec emax m e false).
Proof.
  destruct m as [| p | p]; simpl; [reflexivity | |];
    unfold binary_round; destruct (shl_align p e _) as [mz ez];
    apply abs_binary_round_aux.
Qed.

(** [abs(x - y) = abs(y - x)], also after rounding. *)
Lemma abs_sub_swap (x y : float) : abs (sub x y) = abs (sub y x).
Proof.
  unfold abs, sub.
  destruct x as [sx | sx | | sx mx ex], y as [sy | sy | | sy my ey];
    try reflexivity;
    try (destruct sx, sy; reflexivity);
    try (destruct sx; reflexivity);
    try (destruct sy; reflexivity).
  unfold SFsub. rewrite (Z.min_comm ey ex).
  rewrite <- abs_binary_normalize_opp. f_equal. f_equal. lia.
Qed.

(** A difference of two finite values is never NaN. *)
Lemma sub_not_nan (x y : float) :
  x <> S754_nan -> y <> S754_nan -> is_infinite x = false -> is_infinite y = false ->
  sub x y <> S754_nan.
Proof.
  unfold sub.
  destruct x as [sx | sx | | sx mx ex], y as [sy | sy | | sy my ey];
    try discriminate; try congruence; intros _ _ _ _.
  - simpl. destruct sx, sy; discriminate.
  - unfold SFsub. apply binary_normalize_not_nan.
Qed.

Lemma abs_nonneg (x : float) :
  x <> S754_nan -> leb (S754_zero false) (abs x) = true.
Proof. destruct x as [s | s | | s m e]; [reflexivity | reflexivity | congruence | reflexivity]. Qed.

Lemma abs_not_nan (x : float) : x <> S754_nan -> abs x <> S754_nan.
Proof. destruct x; [discriminate | discriminate | congruence | discriminate]. Qed.

End Float64More.

(** ** More on data preparation *)

Section DataPreparationMore.

Variable X : externals.

Import LibraryFacts.

(** X1: The length test is decided by a number: the difference the script
    computes is never NaN and never negative, so the assertion fails
    exactly when that difference is 3.0 or more. *)
Theorem length_test_is_decided
    (t_aud i_aud : ndarray) (t_sr i_sr : Z) (d : Float64.float) :
  duration_difference t_aud t_sr i_aud i_sr = Return d ->
  d <> S754_nan /\
  Float64.leb (S754_zero false) d = true /\
  (Float64.ltb d Float64.three = false <-> Float64.leb Float64.three d = true).
Proof.
  unfold duration_difference.
  destruct (Float64.int_truediv (Z.of_nat (length t_aud)) t_sr) as [dt | |] eqn:Et;
    try discriminate.
  destruct (Float64.int_truediv (Z.of_nat (length i_aud)) i_sr) as [di | |] eqn:Ei;
    try discriminate.
  intros [= <-].
  destruct (Float64More.int_truediv_not_nan _ _ _ Et) as [Ht1 Ht2].
  destruct (Float64More.int_truediv_not_nan _ _ _ Ei) as [Hi1 Hi2].
  pose proof (Float64More.sub_not_nan dt di Ht1 Hi1 Ht2 Hi2) as Hsub.
  pose proof (Float64More.abs_not_nan _ Hsub) as Habs.
  split; [exact Habs |]. split; [now apply Float64More.abs_nonneg |].
  split.
  - intros Hlt.
    destruct (Float64Facts.ltb_or_leb (Float64.abs (Float64.sub dt di)) Float64.three Habs)
      as [H | H]; [discriminate | congruence | exact H].
  - apply Float64Facts.leb_not_ltb.
Qed.

(** X2: The length test does not care which file is the input and which the
    target: swapping the two gives the same computed difference. *)
Theorem length_test_is_symmetric
    (t_aud i_aud : ndarray) (t_sr i_sr : Z) (d : Float64.float) :
  duration_difference t_aud t_sr i_aud i_sr = Return d ->
  duration_difference i_aud i_sr t_aud t_sr = Return d.
Proof.
  unfold duration_difference.
  destruct (Float64.int_truediv (Z.of_nat (length t_aud)) t_sr) as [dt | |];
    try discriminate.
  destruct (Float64.int_truediv (Z.of_nat (length i_aud)) i_sr) as [di | |];
    try discriminate.
  intros [= <-]. now rewrite Float64More.abs_sub_swap.
Qed.

(** The helper routines act on the file system and on nothing else. *)
Lemma prep_helpers_only_fs (inp out : string) (w : world) :
  exists f, snd (prep_helpers X inp out w) = with_fs f w.
Proof.
  unfold prep_helpers, mbind, M_bind, bind, import_colab, call_fs.
  destruct (import_colab_functions X (fs w)) as [colab | e | c];
    try (exists (fs w); simpl; now rewrite with_fs_same).
  destruct (create_csv_nam_v1_1_1 colab (inp +:+ ".csv") (fs w)) as [[[] | e | c] f1];
    try (now exists f1).
  cbn [fs with_fs].
  destruct (prep_audio colab [inp; out] "amp" true false f1) as [o f2].
  now exists f2.
Qed.

(** A file that cannot be loaded ends data preparation there. *)
Lemma prepare_data_load_fails (w : world) (dir : string) (e : exn) :
  librosa_load X (fs w) (inp_of dir) = Raise e \/
  (exists i, librosa_load X (fs w) (inp_of dir) = Return i /\
             librosa_load X (fs w) (out_of dir) = Raise e) ->
  prepare_data X dir w = (Raise e, w).
Proof.
  intros Hload. unfold prepare_data. fold (inp_of dir) (out_of dir).
  destruct Hload as [Hi | ([i_aud i_sr] & Hi & Ht)].
  - apply bind_raise. unfold load. now rewrite Hi.
  - erewrite bind_return by (unfold load; rewrite Hi; reflexivity).
    cbv beta iota. apply bind_raise. unfold load. now rewrite Ht.
Qed.

(** X3: A file that cannot be loaded ends data preparation, and the run,
    with the loader's exception: whether it is the input or, the input
    loaded, the target; the exit status is 1. *)
Theorem load_failure_aborts (w : world) (dir : string) (e : exn) :
  librosa_load X (fs w) (inp_of dir) = Raise e \/
  (exists i, librosa_load X (fs w) (inp_of dir) = Return i /\
             librosa_load X (fs w) (out_of dir) = Raise e) ->
  fst (prepare_data X dir w) = Raise e /\
  forall args, data_dir args = dir ->
    fst (main X args w) = Raise e /\
    exit_status (fst (main X args w)) = 1.
Proof.
  intros Hload. split; [now rewrite (prepare_data_load_fails w dir e Hload) |].
  intros args <-.
  assert (Hm : main X args w = (Raise e, log_stdout (device_line X) w))
    by (apply main_prepare_raise, prepare_data_load_fails; exact Hload).
  now rewrite Hm.
Qed.


(** X5: A helper module that works: on a valid pair, [create_csv_nam_v1_1_1]
    gets the input path with ".csv" appended, then [prep_audio] gets the
    two paths, the name "amp", [norm=True] and [csv_file=False] and works
    on the files the first routine left; no warning is written. *)
Theorem working_helper_is_silent
    (w : world) (dir : string) (i_aud t_aud : ndarray) (i_sr t_sr : Z)
    (d : Float64.float) (colab : colab_module) (f1 f2 : filesystem) :
  librosa_load X (fs w) (inp_of dir) = Return (i_aud, i_sr) ->
  librosa_load X (fs w) (out_of dir) = Return (t_aud, t_sr) ->
  i_sr = t_sr ->
  duration_difference t_aud t_sr i_aud i_sr = Return d ->
  Float64.ltb d Float64.three = true ->
  import_colab_functions X (fs w) = Return colab ->
  create_csv_nam_v1_1_1 colab (inp_of dir +:+ ".csv") (fs w) = (Return tt, f1) ->
  prep_audio colab [inp_of dir; out_of dir] "amp" true false f1 = (Return tt, f2) ->
  prepare_data X dir w = (Return "amp", with_fs f2 w).
Proof.
  intros Hi Ht Hsr Hd Hlt Himp Hcsv Hprep.
  rewrite (prepare_data_valid X w dir i_aud t_aud i_sr t_sr d) by assumption.
  unfold prep_helpers, mbind, M_bind, bind, import_colab, call_fs.
  rewrite Himp, Hcsv. cbn [fs with_fs]. now rewrite Hprep.
Qed.


(** X7: A helper that ends the interpreter ends the run: no child is started
    and the exit status is the helper's, 0 included. *)
Theorem helper_exit_ends_the_run
    (w w1 : world) (args : namespace) (i_aud t_aud : ndarray) (i_sr t_sr : Z)
    (d : Float64.float) (c : Z) :
  librosa_load X (fs w) (inp_of (data_dir args)) = Return (i_aud, i_sr) ->
  librosa_load X (fs w) (out_of (data_dir args)) = Return (t_aud, t_sr) ->
  i_sr = t_sr ->
  duration_difference t_aud t_sr i_aud i_sr = Return d ->
  Float64.ltb d Float64.three = true ->
  prep_helpers X (inp_of (data_dir args)) (out_of (data_dir args))
               (log_stdout (device_line X) w) = (Exit c, w1) ->
  main X args w = (Exit c, w1) /\
  spawned w1 = spawned w /\
  stderr w1 = stderr w /\
  exit_status (fst (main X args w)) = c.
Proof.
  intros Hi Ht Hsr Hd Hlt E.
  assert (Hp : prepare_data X (data_dir args) (log_stdout (device_line X) w) = (Exit c, w1))
    by (apply (helper_exit_propagates X _ w1 _ i_aud t_aud i_sr t_sr d c); assumption).
  assert (Hm : main X args w = (Exit c, w1))
    by (rewrite main_unfold; now apply bind_exit).
  rewrite Hm.
  destruct (prep_helpers_only_fs (inp_of (data_dir args)) (out_of (data_dir args))
              (log_stdout (device_line X) w)) as [f Hf].
  rewrite E in Hf. simpl in Hf. subst w1. repeat split.
Qed.

End DataPreparationMore.

(** ** More on training, export and the whole run *)

Section PipelineMore.

Variable X : externals.

Import OSFacts FsFacts LibraryFacts.

(** X8: Before it starts the child, [train] prints the command it is about to
    run, as one line after ">>"; it writes nothing to the error stream.
    The line is there whether the child then succeeds, fails or cannot be
    started. *)
Theorem train_prints_its_command
    (w : world) (trainer_dir file_name label : string) (skip : bool) (eps : Z)
    (cfg : string) :
  model_configs !! label = Some cfg ->
  let w' := snd (train X trainer_dir file_name label skip eps w) in
  stdout w' =
    (stdout w ++
       [">> python3 dist_model_recnet.py -l " +:+ cfg +:+ " -fn " +:+ file_name
          +:+ " -sc " +:+ (if skip then "1" else "0") +:+ " -eps " +:+ str_int eps])%list /\
  stderr w' = stderr w.
Proof.
  intros Hcfg. cbv zeta.
  rewrite (train_known_label X w _ _ _ _ _ cfg Hcfg). cbv zeta.
  assert (Hline : train_banner (train_cmd cfg file_name (if skip then 1 else 0) eps)
                  = ">> python3 dist_model_recnet.py -l " +:+ cfg +:+ " -fn " +:+ file_name
                      +:+ " -sc " +:+ (if skip then "1" else "0") +:+ " -eps " +:+ str_int eps)
    by (destruct skip; reflexivity).
  destruct (run_child X _ _ _ _) as [err | rc fs'];
    [| destruct (rc =? 0)]; simpl; now rewrite Hline.
Qed.

(** X9: A conversion child that exits with a non-zero status ends the export
    step with [CalledProcessError]: the output directory is not made,
    nothing is copied and nothing is printed. *)
Theorem failed_conversion_writes_nothing
    (w : world) (trainer_dir model_dir out_dir : string) (rc : Z) (fs' : filesystem) :
  run_child X (convert_cmd model_dir) trainer_dir (environ w) (fs w) = Exited rc fs' ->
  rc <> 0 ->
  let w' := snd (export_aidax X trainer_dir model_dir out_dir w) in
  fst (export_aidax X trainer_dir model_dir out_dir w)
    = Raise (CalledProcessError rc (convert_cmd model_dir)) /\
  fs w' = fs' /\ stdout w' = stdout w.
Proof.
  intros Hrun Hrc. cbv zeta. rewrite export_aidax_run.
  erewrite bind_raise.
  2:{ unfold subprocess_check_call. simpl default. rewrite Hrun.
      destruct (Z.eqb_spec rc 0); [contradiction | reflexivity]. }
  repeat split.
Qed.

(** The world after the conversion child exited with 0. *)
Lemma export_after_conversion
    (w : world) (trainer_dir model_dir out_dir : string) (fs_conv : filesystem) :
  run_child X (convert_cmd model_dir) trainer_dir (environ w) (fs w) = Exited 0 fs_conv ->
  export_aidax X trainer_dir model_dir out_dir w =
    (os_makedirs_exist_ok out_dir ;;
     shutil_copyfile (path_join trainer_dir ["model_keras.json"])
                     (path_join out_dir ["model-lstm.aidax"]) ;;
     shutil_copyfile (path_join model_dir ["model_best.json"])
                     (path_join out_dir ["model-lstm.nam"]) ;;
     print_text X [confirmation out_dir])
      (with_fs fs_conv (log_spawn (Spawn (convert_cmd model_dir) trainer_dir (environ w)) w)).
Proof.
  intros Hrun. rewrite export_aidax_run.
  erewrite bind_return
    by (unfold subprocess_check_call; simpl default; rewrite Hrun; reflexivity).
  reflexivity.
Qed.

(** X10: The export step does not clean up after itself.  With the output
    directory made and no [model_keras.json] where the converter should
    have left it, the step ends with [FileNotFoundError] and leaves what
    [os.makedirs] made; with the first copy made and no [model_best.json]
    in the model directory, it ends with [FileNotFoundError] and leaves
    the directory and [model-lstm.aidax], which has the bytes of
    [model_keras.json]. *)
Theorem export_leaves_partial_output
    (w w2 : world) (trainer_dir model_dir out_dir : string) (fs_conv : filesystem) :
  let keras := path_join trainer_dir ["model_keras.json"] in
  let best := path_join model_dir ["model_best.json"] in
  let aidax := path_join out_dir ["model-lstm.aidax"] in
  let r := export_aidax X trainer_dir model_dir out_dir w in
  run_child X (convert_cmd model_dir) trainer_dir (environ w) (fs w) = Exited 0 fs_conv ->
  os_makedirs_exist_ok out_dir
    (with_fs fs_conv (log_spawn (Spawn (convert_cmd model_dir) trainer_dir (environ w)) w))
    = (Return tt, w2) ->
  (resolve (fs w2) keras = inl ENOENT ->
   fst r = Raise (FileNotFoundError keras) /\ snd r = w2) /\
  (forall w3,
      shutil_copyfile keras aidax w2 = (Return tt, w3) ->
      resolve (fs w3) best = inl ENOENT ->
      fst r = Raise (FileNotFoundError best) /\ snd r = w3 /\
      exists kb, fs w2 !! keras = Some (File kb) /\ fs w3 !! aidax = Some (File kb)).
Proof.
  intros keras best aidax r Hrun Hmk. subst r.
  rewrite (export_after_conversion w _ _ _ fs_conv Hrun).
  rewrite (bind_return _ _ _ _ _ Hmk).
  fold keras best aidax. split.
  - intros Hk.
    rewrite (bind_raise _ _ _ _ _ (copyfile_missing_source keras aidax w2 Hk)).
    now split.
  - intros w3 Hcp Hb.
    rewrite (bind_return _ _ _ _ _ Hcp).
    rewrite (bind_raise _ _ _ _ _ (copyfile_missing_source best _ w3 Hb)).
    split; [reflexivity |]. split; [reflexivity |].
    apply copyfile_return_inv in Hcp as (kb & la & Hrk & Hca & ->).
    exists kb. split.
    + apply read_file_inv in Hrk as [lk Hlk].
      unfold lookup, filesystem_lookup. now rewrite Hlk.
    + unfold lookup, filesystem_lookup. cbn [fs with_fs].
      unfold aidax.
      now rewrite (resolve_written (fs w2) out_dir "model-lstm.aidax" la kb eq_refl Hca).
Qed.

(** X11: An output directory that cannot be made ends the export step after
    the conversion and before any copy: the empty name is refused with
    [FileNotFoundError], a regular file of that name with
    [FileExistsError]. *)
Theorem unusable_out_dir_stops_export
    (w : world) (trainer_dir model_dir out_dir : string) (fs_conv : filesystem) :
  let r := export_aidax X trainer_dir model_dir out_dir w in
  run_child X (convert_cmd model_dir) trainer_dir (environ w) (fs w) = Exited 0 fs_conv ->
  (out_dir = "" -> fst r = Raise (FileNotFoundError "") /\ fs (snd r) = fs_conv) /\
  (forall bytes, out_dir <> "" -> fs_conv !! out_dir = Some (File bytes) ->
                 fst r = Raise (FileExistsError out_dir) /\ fs (snd r) = fs_conv).
Proof.
  intros r Hrun. subst r.
  rewrite (export_after_conversion w _ _ _ fs_conv Hrun).
  split.
  - intros ->. erewrite bind_raise by apply makedirs_empty_name. now split.
  - intros bytes Hne Hfile.
    erewrite bind_raise by (apply (makedirs_over_file _ _ bytes); exact Hfile).
    now split.
Qed.

(** X12: The confirmation line is printed when, and only when, the export step
    has returned: one line naming the [.aidax] file after both copies, and
    no line at all on any failure. *)
Theorem export_confirms_only_success
    (w : world) (trainer_dir model_dir out_dir : string) :
  let r := export_aidax X trainer_dir model_dir out_dir w in
  (fst r = Return tt /\
   stdout (snd r) =
     (stdout w ++ ["✅ wrote: " +:+ path_join out_dir ["model-lstm.aidax"]])%list) \/
  (fst r <> Return tt /\ stdout (snd r) = stdout w).
Proof.
  cbv zeta. rewrite export_aidax_run.
  set (q := fun (A : Type) (m : M A) =>
              forall w0, stdout (snd (m w0)) = stdout w0).
  assert (Hmk : q _ (os_makedirs_exist_ok out_dir))
    by (intros w0; apply fs_only_streams, fs_only_makedirs).
  assert (Hcp : forall src dst, q _ (shutil_copyfile src dst))
    by (intros src dst w0; apply fs_only_streams, fs_only_copyfile).
  assert (Hcc : forall cmd dir env, q _ (subprocess_check_call X cmd dir env)).
  { intros cmd dir env w0. unfold subprocess_check_call.
    destruct (run_child X _ _ _ _) as [| rc ?]; [reflexivity |].
    destruct (rc =? 0); reflexivity. }
  unfold q in *.
  unfold mbind, M_bind, bind.
  pose proof (Hcc (convert_cmd model_dir) trainer_dir None w) as H1.
  destruct (subprocess_check_call X _ _ _ w) as [[[] | e | c] w1];
    simpl in H1; [| right; split; [discriminate | exact H1] ..].
  pose proof (Hmk w1) as H2.
  destruct (os_makedirs_exist_ok out_dir w1) as [[[] | e | c] w2];
    simpl in H2; [| right; split; [discriminate | simpl; congruence] ..].
  pose proof (Hcp (path_join trainer_dir ["model_keras.json"])
                  (path_join out_dir ["model-lstm.aidax"]) w2) as H3.
  destruct (shutil_copyfile _ _ w2) as [[[] | e | c] w3];
    simpl in H3; [| right; split; [discriminate | simpl; congruence] ..].
  pose proof (Hcp (path_join model_dir ["model_best.json"])
                  (path_join out_dir ["model-lstm.nam"]) w3) as H4.
  destruct (shutil_copyfile _ _ w3) as [[[] | e | c] w4];
    simpl in H4; [| right; split; [discriminate | simpl; congruence] ..].
  unfold print_text, confirmation. cbn [String.concat].
  destruct (stdout_encodes X _).
  - left. split; [reflexivity |]. simpl. congruence.
  - right. split; [discriminate |]. simpl. congruence.
Qed.

(** The export step does return when the conversion child exits with 0
    and leaves both source files, the output directory is there, no
    directory is in the place of one of the two files, and the standard
    output takes the confirmation. *)
Lemma export_aidax_succeeds (trainer_dir model_dir out_dir : string) (w : world)
      (fs_conv : filesystem) (kb bb : list Byte.byte) :
  run_child X (convert_cmd model_dir) trainer_dir (environ w) (fs w)
    = Exited 0 fs_conv ->
  fs_conv !! path_join trainer_dir ["model_keras.json"] = Some (File kb) ->
  fs_conv !! path_join model_dir ["model_best.json"] = Some (File bb) ->
  fs_conv !! out_dir = Some Dir ->
  fs_conv !! path_join out_dir ["model-lstm.aidax"] <> Some Dir ->
  fs_conv !! path_join out_dir ["model-lstm.nam"] <> Some Dir ->
  stdout_encodes X (confirmation out_dir) = true ->
  exists w', export_aidax X trainer_dir model_dir out_dir w = (Return tt, w').
Proof.
  intros Hrun Hk Hb Hout Hadir Hndir Henc.
  rewrite (export_after_conversion w _ _ _ fs_conv Hrun).
  set (w1 := with_fs fs_conv _).
  erewrite bind_return by (apply makedirs_existing; exact Hout).
  unfold lookup, filesystem_lookup in Hk, Hb, Hout, Hadir, Hndir.
  destruct (resolve fs_conv out_dir) as [e | [dir n]] eqn:Ed; [discriminate |].
  injection Hout as ->.
  destruct (resolve fs_conv (path_join trainer_dir ["model_keras.json"]))
    as [e | [lk nk]] eqn:Ek; [discriminate |]. injection Hk as ->.
  destruct (resolve fs_conv (path_join model_dir ["model_best.json"]))
    as [e | [lb nb]] eqn:Eb; [discriminate |]. injection Hb as ->.
  destruct (resolve_join_inv fs_conv trainer_dir "model_keras.json" lk _ eq_refl Ek) as (dk & Hlk & _).
  destruct (resolve_join_inv fs_conv model_dir "model_best.json" lb _ eq_refl Eb) as (db & Hlb & _).
  set (la := child dir "model-lstm.aidax").
  set (ln := child dir "model-lstm.nam").
  assert (Hka : lk <> la) by (rewrite Hlk; intros [_ [=]]%child_inj).
  assert (Hba : lb <> la) by (rewrite Hlb; intros [_ [=]]%child_inj).
  assert (Hbn : lb <> ln) by (rewrite Hlb; intros [_ [=]]%child_inj).
  assert (Han : la <> ln) by (intros [_ [=]]%child_inj).
  rewrite (resolve_join fs_conv out_dir "model-lstm.aidax" dir eq_refl Ed) in Hadir.
  rewrite (resolve_join fs_conv out_dir "model-lstm.nam" dir eq_refl Ed) in Hndir.
  fold la in Hadir. fold ln in Hndir.
  assert (Hfree_a : nodes fs_conv !! la <> Some Dir)
    by (destruct (nodes fs_conv !! la) as [[] |]; congruence).
  assert (Hfree_n : nodes fs_conv !! ln <> Some Dir)
    by (destruct (nodes fs_conv !! ln) as [[] |]; congruence).
  assert (Hla0 : la <> []) by apply child_not_root.
  (* the first copy *)
  erewrite bind_return.
  2:{ apply (copyfile_succeeds _ _ w1 kb la).
      - unfold samefile. cbn [fs with_fs w1]. rewrite Ek.
        rewrite (resolve_join fs_conv out_dir "model-lstm.aidax" dir eq_refl Ed).
        fold la. destruct (nodes fs_conv !! la); [| reflexivity].
        now apply bool_decide_eq_false.
      - unfold read_file. cbn [fs with_fs w1]. now rewrite Ek.
      - now apply creat_join. }
  cbn [fs with_fs w1].
  set (f3 := write la kb fs_conv).
  assert (Ed3 : resolve f3 out_dir = inr (dir, Dir)).
  { unfold f3. rewrite (resolve_write fs_conv la kb Hfree_a out_dir dir Dir Hla0 Ed).
    case_decide as E; [| reflexivity]. now destruct (child_not_self dir "model-lstm.aidax"). }
  assert (Eb3 : resolve f3 (path_join model_dir ["model_best.json"]) = inr (lb, File bb)).
  { unfold f3. rewrite (resolve_write fs_conv la kb Hfree_a _ lb _ Hla0 Eb).
    case_decide; [contradiction | reflexivity]. }
  assert (Hfree_n3 : nodes f3 !! ln <> Some Dir).
  { unfold f3. cbn [nodes write]. now rewrite lookup_insert_ne. }
  (* the second copy *)
  erewrite bind_return.
  2:{ apply (copyfile_succeeds _ _ _ bb ln); cbn [fs with_fs]; fold f3.
      - unfold samefile. rewrite Eb3.
        rewrite (resolve_join f3 out_dir "model-lstm.nam" dir eq_refl Ed3).
        fold ln. destruct (nodes f3 !! ln); [| reflexivity].
        now apply bool_decide_eq_false.
      - unfold read_file. now rewrite Eb3.
      - now apply creat_join. }
  unfold print_text. cbn [String.concat]. rewrite Henc. eexists. reflexivity.
Qed.

End PipelineMore.

(** ** More on the whole run *)

Section MainMore.

Variable X : externals.

Lemma export_keeps_environ (trainer_dir model_dir out_dir : string) (w : world) :
  environ (snd (export_aidax X trainer_dir model_dir out_dir w)) = environ w.
Proof.
  rewrite export_aidax_run.
  unfold mbind at 1, M_bind at 1, bind at 1.
  unfold subprocess_check_call at 1. simpl default.
  destruct (run_child X _ _ _ _) as [err | rc fs']; [reflexivity |].
  destruct (rc =? 0); [| reflexivity].
  match goal with
  | |- environ (snd (?m ?w0)) = _ =>
      assert (Hq : quiet m); [| exact (proj2 (Hq w0))]
  end.
  repeat (apply quiet_bind; [| intros _]);
    auto using quiet_makedirs, quiet_copyfile, quiet_print, quiet_print_text.
Qed.

(** X13: The processes of a run, once data preparation has returned its
    tag.  With a label outside the table no child is started.  Otherwise
    the trainer is started, alone or followed by the converter: both in
    the trainer directory, the trainer with the two variables set on top
    of the wrapper's environment, the converter with the wrapper's
    environment and the path of [model_best.json] under the directory
    [train] returned; the converter only after the trainer has exited
    with 0.  [os.environ] is after the run what it was after data
    preparation. *)
Theorem main_starts_at_most_two_children (args : namespace) (w w1 : world) (fn : string) :
  prepare_data X (data_dir args) (log_stdout (device_line X) w) = (Return fn, w1) ->
  let w' := snd (main X args w) in
  environ w' = environ w1 /\
  ((model_configs !! model_type args = None /\ spawned w' = spawned w1) \/
   exists cfg,
     model_configs !! model_type args = Some cfg /\
     let sc := if skip_connection args then 1 else 0 in
     let trainer_child :=
       Spawn (train_cmd cfg "amp" sc (epochs args)) (trainer args)
             (train_env (environ w1)) in
     let converter_child :=
       Spawn (convert_cmd (results_dir (trainer args) "amp" cfg sc)) (trainer args)
             (environ w1) in
     (spawned w' = (spawned w1 ++ [trainer_child])%list /\
      forall fs_t, run_child X (argv trainer_child) (trainer args)
                             (train_env (environ w1)) (fs w1) <> Exited 0 fs_t) \/
     (spawned w' = (spawned w1 ++ [trainer_child; converter_child])%list /\
      exists fs_t, run_child X (argv trainer_child) (trainer args)
                             (train_env (environ w1)) (fs w1) = Exited 0 fs_t)).
Proof.
  intros Hprep. cbv zeta. rewrite main_unfold.
  rewrite (bind_return _ _ _ _ _ Hprep).
  apply prepare_data_tag in Hprep as ->.
  destruct (model_configs !! model_type args) as [cfg |] eqn:Hcfg.
  2:{ erewrite bind_raise by (apply train_unknown_label; exact Hcfg). simpl. auto. }
  pose proof (train_known_label X w1 (trainer args) "amp" (model_type args)
                (skip_connection args) (epochs args) cfg Hcfg) as Htrain.
  cbv zeta in Htrain.
  destruct (run_child X _ (trainer args) (train_env (environ w1)) (fs w1))
    as [err | rc fs_t] eqn:Hrun.
  { rewrite (bind_raise _ _ _ _ _ Htrain). simpl. split; [reflexivity |].
    right. exists cfg. split; [reflexivity |]. left. split; [reflexivity |].
    intros fs_t. cbn [argv]. rewrite Hrun. discriminate. }
  destruct (Z.eqb_spec rc 0) as [-> | Hrc].
  2:{ rewrite (bind_raise _ _ _ _ _ Htrain). simpl. split; [reflexivity |].
      right. exists cfg. split; [reflexivity |]. left. split; [reflexivity |].
      intros fs_t'. cbn [argv]. rewrite Hrun. congruence. }
  rewrite (bind_return _ _ _ _ _ Htrain).
  rewrite export_keeps_environ, export_spawns_with_environ. simpl.
  split; [reflexivity |].
  right. exists cfg. split; [reflexivity |]. right. split.
  - rewrite <- app_assoc. reflexivity.
  - now exists fs_t.
Qed.




(** X15: When the whole run goes through: data preparation returns, the
    label is one of the table, trainer and converter both exit with 0,
    the two source files are where the export step looks for them, the
    output directory is there already, no directory is in the place of
    one of the two files to write, and the standard output takes the
    confirmation.  Then [main] returns, the exit status is 0 and the
    bundle is in place. *)
Theorem main_succeeds
    (args : namespace) (w w1 : world) (cfg : string)
    (fs_t fs_conv : filesystem) (kb bb : list Byte.byte) :
  let sc := if skip_connection args then 1 else 0 in
  let model_dir := results_dir (trainer args) "amp" cfg sc in
  prepare_data X (data_dir args) (log_stdout (device_line X) w) = (Return "amp", w1) ->
  model_configs !! model_type args = Some cfg ->
  run_child X (train_cmd cfg "amp" sc (epochs args)) (trainer args)
            (train_env (environ w1)) (fs w1) = Exited 0 fs_t ->
  run_child X (convert_cmd model_dir) (trainer args) (environ w1) fs_t
    = Exited 0 fs_conv ->
  fs_conv !! path_join (trainer args) ["model_keras.json"] = Some (File kb) ->
  fs_conv !! path_join model_dir ["model_best.json"] = Some (File bb) ->
  fs_conv !! out_dir args = Some Dir ->
  fs_conv !! path_join (out_dir args) ["model-lstm.aidax"] <> Some Dir ->
  fs_conv !! path_join (out_dir args) ["model-lstm.nam"] <> Some Dir ->
  stdout_encodes X (confirmation (out_dir args)) = true ->
  exists w',
    main X args w = (Return tt, w') /\
    exit_status (fst (main X args w)) = 0 /\
    export_bundle (trainer args) model_dir (out_dir args) fs_conv (fs w').
Proof.
  intros sc model_dir Hprep Hcfg Htr Hconv Hk Hb Hout Hadir Hndir Henc.
  pose proof (train_known_label X w1 (trainer args) "amp" (model_type args)
                (skip_connection args) (epochs args) cfg Hcfg) as Htrain.
  cbv zeta in Htrain. fold sc in Htrain. rewrite Htr in Htrain.
  simpl (0 =? 0) in Htrain. cbv iota in Htrain. fold model_dir in Htrain.
  set (w_t := with_fs fs_t _) in Htrain.
  destruct (export_aidax_succeeds X (trainer args) model_dir (out_dir args) w_t
              fs_conv kb bb) as [w' Hw']; try assumption.
  assert (Hm : main X args w = (Return tt, w')).
  { rewrite main_unfold.
    rewrite (bind_return _ _ _ _ _ Hprep).
    rewrite (bind_return _ _ _ _ _ Htrain). exact Hw'. }
  exists w'. rewrite Hm. split; [reflexivity |]. split; [reflexivity |].
  destruct (export_aidax_returns X _ _ _ _ _ Hw') as (fs_conv' & Hrun' & Hbundle).
  change (environ w_t) with (environ w1) in Hrun'.
  change (fs w_t) with fs_t in Hrun'.
  rewrite Hconv in Hrun'. now inversion Hrun'; subst.
Qed.

End MainMore.

(** ** The further theorems at work *)

(** 10 s at 4 Hz against 1 s at 8 Hz: the difference is 9.0. *)
Lemma length_test_is_decided_witness :
  S754_finite false 5066549580791808 (-49) <> S754_nan /\
  Float64.leb (S754_zero false) (S754_finite false 5066549580791808 (-49)) = true /\
  (Float64.ltb (S754_finite false 5066549580791808 (-49)) Float64.three = false <->
   Float64.leb Float64.three (S754_finite false 5066549580791808 (-49)) = true).
Proof.
  apply (length_test_is_decided (silence 40) (silence 8) 4 8).
  vm_compute. reflexivity.
Defined.

Lemma length_test_is_symmetric_witness :
  duration_difference (silence 8) 8 (silence 40) 4
    = Return (S754_finite false 5066549580791808 (-49)).
Proof.
  apply (length_test_is_symmetric (silence 40) (silence 8) 4 8).
  vm_compute. reflexivity.
Defined.

(** A data directory without the two files. *)
Lemma load_failure_aborts_witness :
  fst (prepare_data good "nowhere" w0) = Raise (FileNotFoundError "nowhere/input.wav") /\
  forall args, data_dir args = "nowhere" ->
    fst (main good args w0) = Raise (FileNotFoundError "nowhere/input.wav") /\
    exit_status (fst (main good args w0)) = 1.
Proof.
  apply (load_failure_aborts good w0 "nowhere"). left. reflexivity.
Defined.

Lemma working_helper_is_silent_witness :
  prepare_data good_working "data" w0 =
    (Return "amp",
     with_fs (place "Data/train/amp-input.wav" (File [])
                (place "data/input.wav.csv" (File []) bare)) w0).
Proof.
  apply (working_helper_is_silent good_working w0 "data" (silence 16) (silence 32) 8 8 two
           {| prep_audio := fun _ name _ _ f =>
                (Return tt, place ("Data/train/" +:+ name +:+ "-input.wav") (File []) f);
              create_csv_nam_v1_1_1 := fun p f => (Return tt, place p (File []) f) |}
           (place "data/input.wav.csv" (File []) bare));
    try reflexivity; vm_compute; reflexivity.
Defined.


(** A helper that calls [sys.exit(0)]: the run ends with status 0 and no
    model. *)
Lemma helper_exit_ends_the_run_witness :
  let w1 := with_fs (place "data/input.wav.csv" (File []) bare)
                    (log_stdout (device_line good_quitting) w0) in
  main good_quitting args0 w0 = (Exit 0, w1) /\
  spawned w1 = spawned w0 /\
  stderr w1 = stderr w0 /\
  exit_status (fst (main good_quitting args0 w0)) = 0.
Proof.
  apply (helper_exit_ends_the_run good_quitting w0 _ args0 (silence 16) (silence 32) 8 8 two 0);
    try reflexivity; vm_compute; reflexivity.
Defined.

Lemma train_prints_its_command_witness :
  stdout (snd (train good "t" "amp" "Light" true 50 w0)) =
    [">> python3 dist_model_recnet.py -l LSTM-12 -fn amp -sc 1 -eps 50"] /\
  stderr (snd (train good "t" "amp" "Light" true 50 w0)) = [].
Proof.
  apply (train_prints_its_command good w0 "t" "amp" "Light" true 50 "LSTM-12").
  vm_compute. reflexivity.
Defined.

(** A converter that exits with status 1. *)
Lemma failed_conversion_writes_nothing_witness :
  let r := export_aidax (with_children true 1 false) "t" "t/Results/amp_LSTM-16-0" "res"
                        w_trained in
  fst r = Raise (CalledProcessError 1 (convert_cmd "t/Results/amp_LSTM-16-0")) /\
  fs (snd r) = fs w_trained /\ stdout (snd r) = stdout w_trained.
Proof.
  apply (failed_conversion_writes_nothing (with_children true 1 false) w_trained
           "t" "t/Results/amp_LSTM-16-0" "res" 1 (fs w_trained)).
  - vm_compute. reflexivity.
  - discriminate.
Defined.

(** A converter that exits with 0 without writing its file: the output
    directory stays.  A converter that works on a model directory without
    the best model: the directory and the first copy stay. *)
Lemma export_leaves_partial_output_witness :
  (let r := export_aidax (with_children true 0 false) "t" "t/Results/amp_LSTM-16-0" "res"
                         w_trained in
   fst r = Raise (FileNotFoundError "t/model_keras.json") /\
   fs (snd r) !! "res" = Some Dir) /\
  (let r := export_aidax (with_children true 0 true) "t" "elsewhere" "res" w_trained in
   fst r = Raise (FileNotFoundError "elsewhere/model_best.json") /\
   fs (snd r) !! "res/model-lstm.aidax" = Some (File keras_json) /\
   fs (snd r) !! "res/model-lstm.nam" = None).
Proof.
  split.
  - cbv zeta.
    destruct (proj1 (export_leaves_partial_output (with_children true 0 false) w_trained
                (snd (os_makedirs_exist_ok "res"
                        (with_fs (fs w_trained)
                           (log_spawn (Spawn (convert_cmd "t/Results/amp_LSTM-16-0") "t"
                                             (environ w_trained)) w_trained))))
                "t" "t/Results/amp_LSTM-16-0" "res" (fs w_trained)
                eq_refl eq_refl) eq_refl) as [H1 H2].
    rewrite H1, H2. split; reflexivity.
  - cbv zeta.
    destruct (proj2 (export_leaves_partial_output (with_children true 0 true) w_trained
                (snd (os_makedirs_exist_ok "res"
                        (with_fs (place "t/model_keras.json" (File keras_json) (fs w_trained))
                           (log_spawn (Spawn (convert_cmd "elsewhere") "t"
                                             (environ w_trained)) w_trained))))
                "t" "elsewhere" "res"
                (place "t/model_keras.json" (File keras_json) (fs w_trained))
                eq_refl eq_refl)
              _ eq_refl eq_refl) as (H1 & H2 & _).
    rewrite H1, H2. repeat split; reflexivity.
Defined.

(** An empty output directory name, and a regular file in its place. *)
Lemma unusable_out_dir_stops_export_witness :
  (let r := export_aidax good "t" "t/Results/amp_LSTM-16-0" "" w_trained in
   fst r = Raise (FileNotFoundError "") /\
   fs (snd r) = place "t/model_keras.json" (File keras_json) (fs w_trained)) /\
  (let r := export_aidax good "t" "t/Results/amp_LSTM-16-0" "res" w_blocked in
   fst r = Raise (FileExistsError "res") /\
   fs (snd r) = place "t/model_keras.json" (File keras_json) (fs w_blocked)).
Proof.
  split.
  - apply (proj1 (unusable_out_dir_stops_export good w_trained
                    "t" "t/Results/amp_LSTM-16-0" ""
                    (place "t/model_keras.json" (File keras_json) (fs w_trained))
                    eq_refl)).
    reflexivity.
  - apply (proj2 (unusable_out_dir_stops_export good w_blocked
                    "t" "t/Results/amp_LSTM-16-0" "res"
                    (place "t/model_keras.json" (File keras_json) (fs w_blocked))
                    eq_refl) []).
    + discriminate.
    + vm_compute. reflexivity.
Defined.

(** The children of the run on the stubs, and of a run whose trainer
    fails. *)
Lemma main_starts_at_most_two_children_witness :
  environ (snd (main good args0 w0)) = environ w0 /\
  map argv (spawned (snd (main good args0 w0))) =
    [train_cmd "LSTM-16" "amp" 0 200;
     convert_cmd (results_dir "t" "amp" "LSTM-16" 0)] /\
  map argv (spawned (snd (main good_failing args0 w0))) =
    [train_cmd "LSTM-16" "amp" 0 200].
Proof.
  pose proof (main_starts_at_most_two_children good args0 w0
                (snd (prepare_data good "data" (log_stdout (device_line good) w0)))
                "amp" eq_refl) as [Henv _].
  split; [exact Henv |]. split; vm_compute; reflexivity.
Defined.


(** The run on the stubs into the directory that is already there. *)
Lemma main_succeeds_witness :
  exists w',
    main good args0 w_again = (Return tt, w') /\
    exit_status (fst (main good args0 w_again)) = 0 /\
    export_bundle "t" (results_dir "t" "amp" "LSTM-16" 0) "res"
      (place "t/model_keras.json" (File keras_json)
         (place "t/Results/amp_LSTM-16-0/model_best.json" (File best_json) (fs w_again)))
      (fs w').
Proof.
  apply (main_succeeds good args0 w_again
           (snd (prepare_data good "data" (log_stdout (device_line good) w_again)))
           "LSTM-16"
           (place "t/Results/amp_LSTM-16-0/model_best.json" (File best_json) (fs w_again))
           _ keras_json best_json).
  - vm_compute. reflexivity.
  - vm_compute. reflexivity.
  - vm_compute. reflexivity.
  - vm_compute. reflexivity.
  - vm_compute. reflexivity.
  - vm_compute. reflexivity.
  - vm_compute. reflexivity.
  - vm_compute. discriminate.
  - vm_compute. discriminate.
  - reflexivity.
Defined.
